(** * sglang-mistral: message construction, CLI fallback policy and HTTP client

    A shallow embedding of [sglang_mistral/message.py], [sglang_mistral/cli.py]
    and [sglang_mistral/client.py], and the properties of these modules.

    Python values are embedded as follows:
    - [int] is [Z] (unbounded), [str] is [string], [Optional[T]] is [option T];
    - dict literals of fixed shape are association lists in source order;
    - the request body, which is built by merging [**kwargs] into a literal,
      is a finite map ([gmap string value]);
    - [list] objects that the code appends to live in a heap of list objects,
      so that aliasing and mutation can be expressed;
    - exceptions are values of type [exn]; a computation that may raise
      returns [exn + A]. *)

From Stdlib Require Import ZArith Ascii DecimalString DecimalZ.
From stdpp Require Import gmap strings list fin_maps.

#[local] Set Warnings "-register-all".
#[local] Open Scope Z_scope.

(** ** Python values *)

(** JSON-like Python values: what [requests] can serialise with [json=],
    floating-point numbers left out. *)
Inductive value : Type :=
  | VNone
  | VBool (b : bool)
  | VInt (z : Z)
  | VStr (s : string)
  | VList (items : list value)
  | VDict (entries : list (string * value)).

(** [str(n)] for an [int]: the decimal numeral, with a leading [-] when
    negative.  This is also what an f-string field [{n}] renders. *)
Definition str_int (n : Z) : string := NilZero.string_of_int (Z.to_int n).

(** Truthiness of an [Optional[str]]: [None] and the empty string are falsy. *)
Definition truthy_str (o : option string) : bool :=
  match o with
  | Some s => negb (String.eqb s "")
  | None => false
  end.

(** Truthiness of an [Optional[int]]: [None] and [0] are falsy. *)
Definition truthy_int (o : option Z) : bool :=
  match o with
  | Some n => negb (n =? 0)
  | None => false
  end.

(** Truthiness of an [Optional[List[_]]]: [None] and the empty list are falsy. *)
Definition truthy_list {A} (o : option (list A)) : bool :=
  match o with
  | Some (_ :: _) => true
  | _ => false
  end.

(** ** message.py *)

Module Message.

(** [{"type": "image_url", "image_url": {"url": url}}] *)
Definition image_block (url : value) : value :=
  VDict [("type", VStr "image_url");
         ("image_url", VDict [("url", url)])]%string.

(** [{"type": "text", "text": text}] *)
Definition text_block (text : string) : value :=
  VDict [("type", VStr "text"); ("text", VStr text)]%string.

(** [{"role": "user", "content": content}] *)
Definition user_message (content : value) : value :=
  VDict [("role", VStr "user"); ("content", content)]%string.

(** [create_message(text, image_urls)], with the local list [content]
    threaded through the statements of the body:
<<
  content = []
  if image_urls:
      for url in image_urls:
          content.append({"type": "image_url", "image_url": {"url": url}})
  content.append({"type": "text", "text": text})
  if not image_urls:
      return [{"role": "user", "content": text}]
  return [{"role": "user", "content": content}]
>> *)
Definition create_message (text : string) (image_urls : option (list string))
  : value :=
  let content : list value := [] in
  let content :=
    if truthy_list image_urls
    then foldl (fun acc url => acc ++ [image_block (VStr url)]) content
               (default [] image_urls)
    else content in
  let content := content ++ [text_block text] in
  if negb (truthy_list image_urls)
  then VList [user_message (VStr text)]
  else VList [user_message (VList content)].

(** [determine_default_text(image_count)] *)
Definition determine_default_text (image_count : Z) : string :=
  if image_count =? 0 then "What's in this image?"
  else if image_count =? 1 then "What's in this image?"
  else "I have " +:+ str_int image_count
       +:+ " images. Please describe each image.".

(** *** The same function over a heap of list objects

    Python lists are mutable objects passed by reference.  To state that
    [create_message] leaves its argument alone, the body is also embedded
    over a heap that maps locations to the items of the list stored there:
    [image_urls] is [None] or a reference into the heap, [content] is a
    freshly allocated list, [append] updates the heap in place, and the
    [for] loop reads the live list at index [i] on every iteration, as the
    list iterator does. *)

Abbreviation loc := nat.
Abbreviation heap := (gmap nat (list value)).

(** [[]]: allocate a new empty list. *)
Definition alloc_list (h : heap) : loc * heap :=
  let l := fresh (dom h) in (l, <[l := []]> h).

(** [lst.append(v)]; [None] only on a dangling reference, which Python
    cannot produce. *)
Definition list_append (l : loc) (v : value) (h : heap) : option heap :=
  match h !! l with
  | Some xs => Some (<[l := xs ++ [v]]> h)
  | None => None
  end.

(** [if image_urls] on a reference. *)
Definition truthy_ref (image_urls : option loc) (h : heap) : option bool :=
  match image_urls with
  | None => Some false
  | Some l =>
      match h !! l with
      | Some xs => Some (negb (bool_decide (xs = [])))
      | None => None
      end
  end.

(** [for url in image_urls: content.append(...)], from index [i] on.  The
    iterator stops when [i] is past the end of the list as it is then. *)
Fixpoint for_each_url (fuel : nat) (i : nat) (image_urls content : loc)
    (h : heap) : option heap :=
  match fuel with
  | O => None
  | S fuel' =>
      match h !! image_urls with
      | None => None
      | Some xs =>
          match xs !! i with
          | None => Some h
          | Some url =>
              match list_append content (image_block url) h with
              | None => None
              | Some h' => for_each_url fuel' (S i) image_urls content h'
              end
          end
      end
  end.

(** The number of loop steps granted: one per item present at loop entry
    and one for the final check. *)
Definition loop_fuel (image_urls : loc) (h : heap) : nat :=
  S (length (default [] (h !! image_urls))).

(** The body of [create_message] over the heap.  Both tests of
    [image_urls] read the list as it is when they run.  The result is the
    final heap together with the returned value, in which the list [content]
    is read back from the heap at the [return].  The heap holds the lists
    that the body appends to or iterates over; the list and the dicts built
    by the [return] statement are part of the value. *)
Definition create_message_heap (text : string) (image_urls : option loc)
    (h : heap) : option (heap * value) :=
  let '(content, h) := alloc_list h in
  match truthy_ref image_urls h with
  | None => None
  | Some t =>
      let looped :=
        match t, image_urls with
        | true, Some l => for_each_url (loop_fuel l h) 0 l content h
        | _, _ => Some h
        end in
      match looped with
      | None => None
      | Some h =>
          match list_append content (text_block text) h with
          | None => None
          | Some h =>
              match truthy_ref image_urls h with
              | None => None
              | Some t' =>
                  if negb t'
                  then Some (h, VList [user_message (VStr text)])
                  else
                    match h !! content with
                    | None => None
                    | Some items =>
                        Some (h, VList [user_message (VList items)])
                    end
              end
          end
      end
  end.

End Message.

(** ** cli.py *)

Module Cli.
Import Message.

Definition FALLBACK_IMAGE_URL : string :=
  "https://github.com/alex-crouch/resources/blob/main/zsh-diskfree/images/servingsuggestion.gif?raw=true".

(** [determine_text_and_images(text_arg, image_urls_arg)] *)
Definition determine_text_and_images (text_arg : option string)
    (image_urls_arg : option (list string))
  : string * option (list string) :=
  match text_arg with
  | Some text => (text, image_urls_arg)
  | None =>
      if truthy_list image_urls_arg
      then (determine_default_text
              (Z.of_nat (length (default [] image_urls_arg))),
            image_urls_arg)
      else (determine_default_text 1, Some [FALLBACK_IMAGE_URL])
  end.

(** The flattening step of [main]:
<<
  flattened_image_urls = None
  if args.image_url:
      flattened_image_urls = []
      for url_group in args.image_url:
          flattened_image_urls.extend(url_group)
>> *)
Definition flatten_image_urls (image_url : option (list (list string)))
  : option (list string) :=
  if truthy_list image_url
  then Some (foldl (fun acc url_group => acc ++ url_group) []
                   (default [] image_url))
  else None.

End Cli.

(** ** client.py *)

Module Client.

(** *** Exceptions

    The classes that matter to the [except] clauses of the client.  The first
    five are [requests.exceptions.RequestException] or subclasses of it (the
    JSON decoding error of [Response.json()] is one of them); the others are
    not. *)
Inductive exn_class : Type :=
  | RequestException
  | ConnectionError
  | Timeout
  | HTTPError
  | JSONDecodeError
  | ValueError
  | TypeError
  | KeyboardInterrupt.

(** An exception object: its class and [str(e)]. *)
Record exn : Type := Exn { exn_cls : exn_class; exn_msg : string }.

(** [isinstance(e, requests.exceptions.RequestException)] *)
Definition is_RequestException (e : exn) : bool :=
  match exn_cls e with
  | RequestException | ConnectionError | Timeout | HTTPError
  | JSONDecodeError => true
  | ValueError | TypeError | KeyboardInterrupt => false
  end.

(** *** The [requests] library

    A response carries its status line, the URL it answers, the body text
    and the outcome of decoding that body as JSON: the decoded value, or the
    message of the decoding error. *)
Record Response : Type := {
  status_code : Z;
  reason : string;
  resp_url : string;
  text : string;
  json_outcome : string + value;
}.

(** The network, as seen through [requests.post(url, json=data)] and
    [requests.get(url, timeout=t)]: each call yields a response or raises. *)
Record Network : Type := {
  http_post : string -> gmap string value -> exn + Response;
  http_get : string -> Z -> exn + Response;
}.

(** What a call does to the outside: the requests it sends and the lines
    it prints on [sys.stderr]. *)
Inductive event : Type :=
  | POST (url : string) (data : gmap string value)
  | GET (url : string) (timeout : Z)
  | STDERR (line : string).

(** Computations that send requests, print and may raise: the events are
    appended to the trace so far, also when the computation raises. *)
Definition IO (A : Type) : Type := list event -> list event * (exn + A).

Definition ret {A} (a : A) : IO A := fun t => (t, inr a).

Definition raise {A} (e : exn) : IO A := fun t => (t, inl e).

Definition bind {A B} (m : IO A) (k : A -> IO B) : IO B :=
  fun t =>
    match m t with
    | (t', inr a) => k a t'
    | (t', inl e) => (t', inl e)
    end.

Notation "'let*' x := m 'in' k" := (bind m (fun x => k))
  (at level 10, x name, m at level 100, k at level 200, only parsing).

(** [try: body  except C as e: handler]: the handler runs on the exceptions
    of [body] that [catches] selects; the others propagate. *)
Definition try_except {A} (body : IO A) (catches : exn -> bool)
    (handler : exn -> IO A) : IO A :=
  fun t =>
    match body t with
    | (t', inl e) => if catches e then handler e t' else (t', inl e)
    | r => r
    end.

Definition emit (ev : event) : IO unit := fun t => (t ++ [ev], inr tt).

(** [print(line, file=sys.stderr)] *)
Definition print_stderr (line : string) : IO unit := emit (STDERR line).

(** [requests.post(url, json=data)] *)
Definition requests_post (net : Network) (url : string)
    (data : gmap string value) : IO Response :=
  fun t => (t ++ [POST url data], http_post net url data).

(** [requests.get(url, timeout=timeout)] *)
Definition requests_get (net : Network) (url : string) (timeout : Z)
    : IO Response :=
  fun t => (t ++ [GET url timeout], http_get net url timeout).

(** [Response.raise_for_status()] of the [requests] library: it prepares a
    message for the statuses 400 to 499 (client error) and 500 to 599 (server
    error), and raises an [HTTPError] with it when there is one. *)
Definition http_error_msg (r : Response) : option string :=
  if (400 <=? status_code r) && (status_code r <? 500) then
    Some (str_int (status_code r) +:+ " Client Error: " +:+ reason r
          +:+ " for url: " +:+ resp_url r)
  else if (500 <=? status_code r) && (status_code r <? 600) then
    Some (str_int (status_code r) +:+ " Server Error: " +:+ reason r
          +:+ " for url: " +:+ resp_url r)
  else None.

Definition raise_for_status (r : Response) : IO unit :=
  match http_error_msg r with
  | Some msg => raise (Exn HTTPError msg)
  | None => ret tt
  end.

(** [Response.json()]: the decoded body, or the library's [JSONDecodeError]. *)
Definition response_json (r : Response) : IO value :=
  match json_outcome r with
  | inr v => ret v
  | inl msg => raise (Exn JSONDecodeError msg)
  end.

(** The outcomes of a request at the transport level: a response, or an
    exception of the [requests] library (connection error, timeout, ...). *)
Definition transport_outcome (o : exn + Response) : Prop :=
  match o with
  | inr _ => True
  | inl e => is_RequestException e = true
  end.

(** *** The client *)

Record SGLangMistralClient : Type := {
  host : string;
  port : Z;
  model : string;
  base_url : string;
}.

Definition DEFAULT_HOST : string := "localhost".
Definition DEFAULT_PORT : string := "30000".
Definition DEFAULT_MODEL : string :=
  "OPEA/Mistral-Small-3.1-24B-Instruct-2503-int4-AutoRound-awq-sym".

(** [os.getenv(key, default)] *)
Definition getenv (environ : gmap string string) (key default : string)
  : string :=
  match environ !! key with
  | Some v => v
  | None => default
  end.

Section Init.

(** The builtin [int(s)] on a string: the integer, or the [ValueError] it
    raises. *)
Variable py_int : string -> exn + Z.

(** [SGLangMistralClient.__init__(self, host, port, model)]:
<<
  self.host = host or os.getenv("SGLANG_HOST", "localhost")
  self.port = port or int(os.getenv("SGLANG_PORT", "30000"))
  self.model = model or "OPEA/Mistral-Small-3.1-24B-Instruct-2503-int4-AutoRound-awq-sym"
  self.base_url = f"http://{self.host}:{self.port}"
>>
    [x or y] is [x] when [x] is truthy and [y] otherwise; [y] is evaluated
    only in the second case. *)
Definition init (environ : gmap string string) (host_arg : option string)
    (port_arg : option Z) (model_arg : option string)
  : exn + SGLangMistralClient :=
  let self_host :=
    if truthy_str host_arg then default "" host_arg
    else getenv environ "SGLANG_HOST" DEFAULT_HOST in
  let self_port :=
    if truthy_int port_arg then inr (default 0 port_arg)
    else py_int (getenv environ "SGLANG_PORT" DEFAULT_PORT) in
  match self_port with
  | inl e => inl e
  | inr self_port =>
      let self_model :=
        if truthy_str model_arg then default "" model_arg
        else DEFAULT_MODEL in
      inr {| host := self_host;
             port := self_port;
             model := self_model;
             base_url := "http://" +:+ self_host +:+ ":" +:+ str_int self_port |}
  end.

End Init.

(** The literal [{"model": self.model, "messages": messages,
    "max_tokens": max_tokens, **kwargs}]: a key of [kwargs] replaces the
    entry of the same name. *)
Definition request_data (self : SGLangMistralClient) (messages : value)
    (max_tokens : Z) (kwargs : gmap string value) : gmap string value :=
  kwargs ∪ {[ "model" := VStr (model self);
              "messages" := messages;
              "max_tokens" := VInt max_tokens ]}.

(** [f"Error making request to {url}: {e}"] *)
Definition error_line (url : string) (e : exn) : string :=
  "Error making request to " +:+ url +:+ ": " +:+ exn_msg e.

(** [print(f"Error making request to {url}: {e}", file=sys.stderr); raise] *)
Definition log_and_reraise {A} (url : string) (e : exn) : IO A :=
  let* _ := print_stderr (error_line url e) in
  raise e.

(** [SGLangMistralClient.make_request(self, messages, max_tokens, **kwargs)] *)
Definition make_request (net : Network) (self : SGLangMistralClient)
    (messages : value) (max_tokens : Z) (kwargs : gmap string value)
  : IO value :=
  let url := base_url self +:+ "/v1/chat/completions" in
  let data := request_data self messages max_tokens kwargs in
  try_except
    (let* response := requests_post net url data in
     let* _ := raise_for_status response in
     response_json response)
    is_RequestException
    (log_and_reraise url).

(** [SGLangMistralClient.make_request_raw(self, messages, max_tokens, **kwargs)] *)
Definition make_request_raw (net : Network) (self : SGLangMistralClient)
    (messages : value) (max_tokens : Z) (kwargs : gmap string value)
  : IO string :=
  let url := base_url self +:+ "/v1/chat/completions" in
  let data := request_data self messages max_tokens kwargs in
  try_except
    (let* response := requests_post net url data in
     let* _ := raise_for_status response in
     ret (text response))
    is_RequestException
    (log_and_reraise url).

(** [SGLangMistralClient.health_check(self)] *)
Definition health_check (net : Network) (self : SGLangMistralClient)
  : IO bool :=
  try_except
    (let* response := requests_get net (base_url self +:+ "/health") 5 in
     ret (status_code response =? 200))
    is_RequestException
    (fun _ => ret false).

End Client.

(** ** Concrete inputs

    Values on which the definitions above are run in the examples below. *)

Module Fixtures.
Import Message Client.

(** A stand-in for [int(s)] in the examples: it agrees with [int] on the
    plain decimal numerals (an optional [-] and digits) and on strings
    without digits, and raises [ValueError] on everything else, also on
    what [int] accepts beyond that (surrounding white space, a leading [+],
    underscores between digits).  It is only run on such numerals and on
    ["http"]; the theorems hold for any [py_int]. *)
Definition decimal_int (s : string) : exn + Z :=
  match NilZero.int_of_string s with
  | Some d => inr (Z.of_int d)
  | None =>
      inl (Exn ValueError
             ("invalid literal for int() with base 10: '" +:+ s +:+ "'"))
  end.

(** The client built without arguments in an empty environment. *)
Definition default_client : SGLangMistralClient :=
  {| host := "localhost";
     port := 30000;
     model := DEFAULT_MODEL;
     base_url := "http://localhost:30000" |}.

(** The client of the test suite. *)
Definition test_client : SGLangMistralClient :=
  {| host := "test-host";
     port := 9999;
     model := "test-model";
     base_url := "http://test-host:9999" |}.

(** The environment of the test suite. *)
Definition test_environ : gmap string string :=
  {[ "SGLANG_HOST" := "env-host";
     "SGLANG_PORT" := "8080";
     "SGLANG_MODEL" := "env-model" ]}.

(** A network that answers every request in the same way. *)
Definition constant_network (outcome : exn + Response) : Network :=
  {| http_post _ _ := outcome; http_get _ _ := outcome |}.

Definition connection_refused : exn := Exn ConnectionError "Connection failed".

Definition read_timeout : exn := Exn Timeout "Request timed out".

Definition interrupted : exn := Exn KeyboardInterrupt "".

(** A response with a JSON object as body. *)
Definition json_response (status : Z) (reason : string) : Response :=
  {| status_code := status;
     reason := reason;
     resp_url := "http://test-host:9999/v1/chat/completions";
     text := "{}";
     json_outcome := inr (VDict []) |}.

(** A response whose body is not JSON. *)
Definition html_response (status : Z) (reason : string) : Response :=
  {| status_code := status;
     reason := reason;
     resp_url := "http://test-host:9999/v1/chat/completions";
     text := "<html></html>";
     json_outcome := inl "Expecting value: line 1 column 1 (char 0)" |}.

(** The configuration that the specification's resolution order would
    store: the explicit argument when one is given, else the value of the
    environment variable when it is set, else the default. *)
Definition resolve_as_specified {A} (arg env_value : option A) (default : A)
  : A :=
  match arg with
  | Some a => a
  | None =>
      match env_value with
      | Some v => v
      | None => default
      end
  end.

End Fixtures.

(** ** cli.py: the entry point, and [SGLangMistralClient.__repr__] *)

Module CliMain.
Import Message Cli Client.

(** [SGLangMistralClient.__repr__(self)] *)
Definition repr (self : SGLangMistralClient) : string :=
  "SGLangMistralClient(host='" +:+ host self +:+ "', port="
  +:+ str_int (port self) +:+ ", model='" +:+ model self +:+ "')".

(** The namespace that [parser.parse_args()] returns: [--host], [--port],
    [--model] and [--text] are [None] when absent, [--max-tokens] defaults
    to 300, [--image-url] collects one group of values per occurrence and
    is [None] when the flag is absent, [--raw] and [--json] are switches. *)
Record Namespace : Type := {
  args_host : option string;
  args_port : option Z;
  args_model : option string;
  args_max_tokens : Z;
  args_text : option string;
  args_image_url : option (list (list string));
  args_raw : bool;
  args_json : bool;
}.

(** [isinstance(e, KeyboardInterrupt)] *)
Definition is_KeyboardInterrupt (e : exn) : bool :=
  match exn_cls e with
  | KeyboardInterrupt => true
  | _ => false
  end.

(** [isinstance(e, Exception)]: every class but [KeyboardInterrupt], which
    derives from [BaseException] directly. *)
Definition is_Exception (e : exn) : bool :=
  match exn_cls e with
  | KeyboardInterrupt => false
  | _ => true
  end.

(** What the process does to the outside: the events of the client, and
    the lines printed on standard output. *)
Inductive output : Type :=
  | Ev (ev : event)
  | STDOUT (line : string).

(** Computations of the entry point, over the outputs so far. *)
Definition Proc (A : Type) : Type := list output → list output * (exn + A).

(** A computation of the client run inside the process: its events follow
    the outputs so far. *)
Definition run_client {A} (m : IO A) : Proc A :=
  fun out => let '(t, r) := m [] in (out ++ (Ev <$> t), r).

(** [print(line)] *)
Definition print_stdout (line : string) : Proc unit :=
  fun out => (out ++ [STDOUT line], inr tt).

(** [print(line, file=sys.stderr)] from the entry point. *)
Definition print_error (line : string) : Proc unit :=
  fun out => (out ++ [Ev (STDERR line)], inr tt).

Section Main.

(** The builtin [int] on a string, as for the constructor. *)
Variable py_int : string → exn + Z.

(** [str(response)], which [print(response)] writes for a decoded body. *)
Variable py_str : value → string.

(** [json.dumps(response, indent=indent)] *)
Variable json_dumps : value → Z → string.

(** [os.environ] and the network at the time of the call. *)
Variable environ : gmap string string.
Variable net : Network.

(** The [try] block of [main]:
<<
  client = SGLangMistralClient(host=args.host, port=args.port, model=args.model)
  flattened_image_urls = None
  if args.image_url:
      flattened_image_urls = []
      for url_group in args.image_url:
          flattened_image_urls.extend(url_group)
  text_message, image_urls = determine_text_and_images(args.text, flattened_image_urls)
  messages = create_message(text_message, image_urls)
  if args.raw:
      response = client.make_request_raw(messages=messages, max_tokens=args.max_tokens)
      print(response)
  else:
      response = client.make_request(messages=messages, max_tokens=args.max_tokens)
      if args.json:
          print(json.dumps(response, indent=2))
      else:
          print(response)
>> *)
Definition main_try (args : Namespace) : Proc unit :=
  fun out =>
    match init py_int environ (args_host args) (args_port args)
            (args_model args) with
    | inl e => (out, inl e)
    | inr client =>
        let flattened_image_urls := flatten_image_urls (args_image_url args) in
        let '(text_message, image_urls) :=
          determine_text_and_images (args_text args) flattened_image_urls in
        let messages := create_message text_message image_urls in
        if args_raw args then
          match run_client (make_request_raw net client messages
                              (args_max_tokens args) ∅) out with
          | (out, inl e) => (out, inl e)
          | (out, inr response) => print_stdout response out
          end
        else
          match run_client (make_request net client messages
                              (args_max_tokens args) ∅) out with
          | (out, inl e) => (out, inl e)
          | (out, inr response) =>
              if args_json args
              then print_stdout (json_dumps response 2) out
              else print_stdout (py_str response) out
          end
    end.

(** The line printed on an interrupt: a line feed, then the message. *)
Definition INTERRUPTED : string :=
  String (Ascii.ascii_of_nat 10) "Interrupted by user".

(** The [except] clauses of [main]:
<<
  except KeyboardInterrupt:
      print("\nInterrupted by user", file=sys.stderr)
      return 130
  except Exception as e:
      print(f"Error: {e}", file=sys.stderr)
      return 1
>>
    An exception that neither clause selects propagates. *)
Definition main_except (e : exn) : Proc Z :=
  fun out =>
    if is_KeyboardInterrupt e then
      match print_error INTERRUPTED out with
      | (out, _) => (out, inr 130)
      end
    else if is_Exception e then
      match print_error ("Error: " +:+ exn_msg e) out with
      | (out, _) => (out, inr 1)
      end
    else (out, inl e).

(** [main()], from the parsed arguments on: the exit code is [0] when the
    [try] block completes.  The call [parser.parse_args()], which runs
    before the [try] and ends the process itself on [--help] or on rejected
    arguments, is not part of it. *)
Definition main (args : Namespace) : Proc Z :=
  fun out =>
    match main_try args out with
    | (out, inr _) => (out, inr 0)
    | (out, inl e) => main_except e out
    end.

End Main.

End CliMain.

(** Arguments and renderings on which the entry point is run below. *)

Module Scenarios.
Import Client CliMain.

(** [--text Hello] and nothing else. *)
Definition hello_args : Namespace :=
  {| args_host := None;
     args_port := None;
     args_model := None;
     args_max_tokens := 300;
     args_text := Some "Hello";
     args_image_url := None;
     args_raw := false;
     args_json := false |}.

(** [--text Hello --raw --json] *)
Definition hello_raw_args : Namespace :=
  {| args_host := None;
     args_port := None;
     args_model := None;
     args_max_tokens := 300;
     args_text := Some "Hello";
     args_image_url := None;
     args_raw := true;
     args_json := true |}.

(** Renderings that tell only which function produced the line. *)
Definition str_marker (v : value) : string := "str(response)".

Definition dumps_marker (v : value) (indent : Z) : string :=
  "json.dumps(response, indent=" +:+ str_int indent +:+ ")".

End Scenarios.

(** ** setup-check.py *)

Module SetupCheck.
Import Client CliMain.

(** [needle in haystack] on strings. *)
Fixpoint contains (needle haystack : string) : bool :=
  String.prefix needle haystack
  || match haystack with
     | EmptyString => false
     | String _ rest => contains needle rest
     end.

(** [s * n] on a string. *)
Fixpoint str_repeat (s : string) (n : nat) : string :=
  match n with
  | O => ""
  | S n' => s +:+ str_repeat s n'
  end.

(** The line feed that starts some of the lines printed. *)
Definition LF : string := String (Ascii.ascii_of_nat 10) "".

Definition PLACEHOLDER : string := "your_huggingface_token_here".

(** [hf_token and hf_token != "your_huggingface_token_here"] *)
Definition token_configured (hf_token : string) : bool :=
  negb (String.eqb hf_token "") && negb (String.eqb hf_token PLACEHOLDER).

(** What the checks look at besides the environment variables:
    - whether [.env.example] exists;
    - [.env]: [None] when it does not exist, else the outcome of opening
      and reading it, its content or the exception raised;
    - whether [requests] and [dotenv] can be imported;
    - the outcome of importing [client], [message] and [cli] from the
      package ([None] on success), and what [hasattr] finds in them. *)
Record System : Type := {
  env_example_exists : bool;
  env_file : option (exn + string);
  requests_importable : bool;
  dotenv_importable : bool;
  package_import_error : option exn;
  cli_has_main : bool;
  client_has_class : bool;
  message_has_create_message : bool;
}.

(** The state the checks run in: [os.environ] and the lines printed. *)
Record World : Type := {
  environ : gmap string string;
  stdout : list string;
}.

Definition Check (A : Type) : Type := World → World * (exn + A).

(** [print(line)] *)
Definition print (line : string) (w : World) : World :=
  {| environ := environ w; stdout := stdout w ++ [line] |}.

(** The three places of [check_env_file] that fall back on the global
    variable:
<<
  global_hf_token = os.getenv("HF_TOKEN", "")
  if global_hf_token and global_hf_token != "your_huggingface_token_here":
      print(found); return True
  else:
      print(...); ...; return False
>> *)
Definition global_token_or (found : string) (missing : list string)
  : Check bool :=
  fun w =>
    if token_configured (getenv (environ w) "HF_TOKEN" "")
    then (print found w, inr true)
    else (foldl (fun w line => print line w) w missing, inr false).

(** The verdict of [check_env_file] in closed form, for the statements
    about it. *)
Definition env_file_verdict (sys : System) (environ : gmap string string)
  : bool :=
  env_example_exists sys
  && match env_file sys with
     | None => token_configured (getenv environ "HF_TOKEN" "")
     | Some (inl _) => false
     | Some (inr content) =>
         token_configured (getenv environ "HF_TOKEN" "")
         || (contains "HF_TOKEN=" content
             && negb (contains "HF_TOKEN=your_huggingface_token_here"
                        content))
     end.

(** [os.environ] when [check_environment_variables] reads it. *)
Definition loaded_environ (sys : System)
    (load_dotenv import_effect : gmap string string → gmap string string)
    (environ : gmap string string) : gmap string string :=
  if dotenv_importable sys then load_dotenv (import_effect environ)
  else import_effect environ.

Section Checks.

Variable sys : System.

(** The effect of [load_dotenv()] on [os.environ]. *)
Variable load_dotenv : gmap string string → gmap string string.

(** The effect on [os.environ] of importing the package, whose module
    [client] calls [load_dotenv()] when it is first imported. *)
Variable import_effect : gmap string string → gmap string string.

(** [check_env_file()] *)
Definition check_env_file : Check bool :=
  fun w =>
    let w := print "🔍 Checking environment configuration..." w in
    if negb (env_example_exists sys) then
      (print "❌ .env.example file not found!" w, inr false)
    else
      match env_file sys with
      | None =>
          global_token_or
            "✅ .env file not found, but HF_TOKEN is available globally"
            ["⚠️  .env file not found. Please run: cp .env.example .env";
             "   Then edit .env with your actual HuggingFace token.";
             "   Alternatively, set HF_TOKEN as a global environment variable."]
            w
      | Some (inl e) =>
          if is_Exception e
          then (print ("❌ Error reading .env file: " +:+ exn_msg e) w,
                inr false)
          else (w, inl e)
      | Some (inr content) =>
          if contains "HF_TOKEN=your_huggingface_token_here" content then
            global_token_or
              "✅ .env has placeholder value, but HF_TOKEN is available globally"
              ["⚠️  HF_TOKEN still has placeholder value.";
               "   Please edit .env and set your actual HuggingFace token.";
               "   Alternatively, set HF_TOKEN as a global environment variable."]
              w
          else if negb (contains "HF_TOKEN=" content) then
            global_token_or
              "✅ .env missing HF_TOKEN, but it's available globally"
              ["⚠️  HF_TOKEN not found in .env file.";
               "   Alternatively, set HF_TOKEN as a global environment variable."]
              w
          else (print "✅ Environment file configured" w, inr true)
      end.

(** [check_dependencies()] *)
Definition check_dependencies : Check bool :=
  fun w =>
    let w := print (LF +:+ "🔍 Checking dependencies...") w in
    if requests_importable sys then
      let w := print "✅ requests library available" w in
      let w :=
        if dotenv_importable sys
        then print "✅ python-dotenv library available" w
        else print "⚠️  python-dotenv not found (optional)" w in
      (w, inr true)
    else (print "❌ requests library not found. Run: uv sync" w, inr false).

(** [check_script()] *)
Definition check_script : Check bool :=
  fun w =>
    let w := print (LF +:+ "🔍 Checking main script...") w in
    let w := {| environ := import_effect (environ w); stdout := stdout w |} in
    match package_import_error sys with
    | Some e =>
        if is_Exception e
        then (print ("❌ Error importing sglang_mistral package: "
                     +:+ exn_msg e) w, inr false)
        else (w, inl e)
    | None =>
        let w := print "✅ sglang_mistral package imports successfully" w in
        let w :=
          if cli_has_main sys then print "✅ main function found" w
          else print "⚠️  main function not found" w in
        let w :=
          if client_has_class sys
          then print "✅ SGLangMistralClient class found" w else w in
        let w :=
          if message_has_create_message sys
          then print "✅ create_message function found" w else w in
        (w, inr true)
    end.

(** [check_environment_variables()] *)
Definition check_environment_variables : Check bool :=
  fun w =>
    let w := print (LF +:+ "🔍 Checking environment variables...") w in
    let w :=
      if dotenv_importable sys
      then {| environ := load_dotenv (environ w); stdout := stdout w |}
      else w in
    let host := getenv (environ w) "SGLANG_HOST" "localhost" in
    let port := getenv (environ w) "SGLANG_PORT" "30000" in
    let hf_token := getenv (environ w) "HF_TOKEN" "" in
    let w := print ("📍 SGLANG_HOST: " +:+ host) w in
    let w := print ("📍 SGLANG_PORT: " +:+ port) w in
    if token_configured hf_token
    then (print "✅ HF_TOKEN is configured" w, inr true)
    else (print "⚠️  HF_TOKEN not configured or using placeholder" w,
          inr false).

(** The loop of [main]:
<<
  for check in checks:
      if not check():
          all_passed = False
>> *)
Fixpoint run_checks (checks : list (Check bool)) (all_passed : bool)
  : Check bool :=
  fun w =>
    match checks with
    | [] => (w, inr all_passed)
    | check :: rest =>
        match check w with
        | (w, inl e) => (w, inl e)
        | (w, inr passed) =>
            run_checks rest (if negb passed then false else all_passed) w
        end
    end.

(** How [main] ends: by returning, or by [sys.exit(code)]. *)
Inductive completion : Type :=
  | Returned
  | SysExit (code : Z).

(** [main()] *)
Definition main : Check completion :=
  fun w =>
    let w := print "🚀 SGLang Mistral Setup Verification" w in
    let w := print (str_repeat "=" 40) w in
    let checks := [check_env_file; check_dependencies; check_script;
                   check_environment_variables] in
    match run_checks checks true w with
    | (w, inl e) => (w, inl e)
    | (w, inr all_passed) =>
        let w := print (LF +:+ str_repeat "=" 40) w in
        if all_passed
        then (print "🎉 All checks passed! Your setup is ready." w,
              inr Returned)
        else (print "❌ Some checks failed. Please fix the issues above." w,
              inr (SysExit 1))
    end.

End Checks.

End SetupCheck.

(** Systems on which the setup script is run below. *)

Module SetupScenarios.
Import Client CliMain SetupCheck.

(** Both files present, a real token in [.env], everything importable. *)
Definition ready_system : System :=
  {| env_example_exists := true;
     env_file := Some (inr "HF_TOKEN=hf_abc");
     requests_importable := true;
     dotenv_importable := true;
     package_import_error := None;
     cli_has_main := true;
     client_has_class := true;
     message_has_create_message := true |}.

(** No [.env.example], an unreadable [.env], nothing importable. *)
Definition broken_system : System :=
  {| env_example_exists := false;
     env_file := Some (inl (Exn ValueError "invalid start byte"));
     requests_importable := false;
     dotenv_importable := false;
     package_import_error :=
       Some (Exn TypeError "'NoneType' object is not callable");
     cli_has_main := false;
     client_has_class := false;
     message_has_create_message := false |}.

(** A [load_dotenv] that sets [HF_TOKEN] from the [.env] of
    [ready_system] unless the variable is already set. *)
Definition load_token (environ : gmap string string) : gmap string string :=
  match environ !! "HF_TOKEN" with
  | Some _ => environ
  | None => <["HF_TOKEN" := "hf_abc"]> environ
  end.

Definition empty_world : World := {| environ := ∅; stdout := [] |}.

End SetupScenarios.

(** * Properties *)

Import Message Cli Client Fixtures.

(** ** Message construction *)

Section MessageProperties.

Implicit Types (text url : string) (urls : list string).

(** Appending one block per item is a [map] after the blocks so far. *)
Lemma foldl_append_blocks {A} (f : A → value) (xs : list A) (acc : list value) :
  foldl (fun acc x => acc ++ [f x]) acc xs = acc ++ (f <$> xs).
Proof.
  revert acc. induction xs as [|x xs IH]; intros acc; simpl.
  - by rewrite app_nil_r.
  - rewrite IH. by rewrite <- app_assoc.
Qed.

(** The content list built for a non-empty list of URLs, in closed form. *)
Lemma create_message_images_closed_form text urls :
  urls ≠ [] →
  create_message text (Some urls)
  = VList [user_message
             (VList (((fun url => image_block (VStr url)) <$> urls)
                     ++ [text_block text]))].
Proof.
  intros Hne. unfold create_message.
  destruct urls as [|u urls]; [done|].
  cbn [truthy_list negb default].
  by rewrite foldl_append_blocks.
Qed.

(** C2: without image URLs ([None] or the empty list) the result is the
    one-element list holding [{"role": "user", "content": text}], whose
    content is the string itself and not a list with one text block; this
    holds for the empty text too. *)
Theorem create_message_text_only text :
  create_message text None = create_message text (Some [])
  ∧ create_message text (Some [])
    = VList [VDict [("role", VStr "user"); ("content", VStr text)]]
  ∧ create_message "" None
    = VList [VDict [("role", VStr "user"); ("content", VStr "")]]
  ∧ create_message text None ≠ VList [user_message (VList [text_block text])].
Proof.
  repeat split; try reflexivity.
  unfold create_message; simpl. intros H. discriminate H.
Qed.

(** C3: with a non-empty list of URLs the result is one user message whose
    content is a list of [len(urls) + 1] blocks: the image block of
    [urls[i]] at every index [i < len(urls)], the URL string unchanged, and
    the text block with [text] at the last index. *)
Theorem create_message_with_images text urls :
  urls ≠ [] →
  ∃ content : list value,
    create_message text (Some urls)
    = VList [VDict [("role", VStr "user"); ("content", VList content)]]
    ∧ length content = S (length urls)
    ∧ (∀ (i : nat) url, urls !! i = Some url →
         content !! i
         = Some (VDict [("type", VStr "image_url");
                        ("image_url", VDict [("url", VStr url)])]))
    ∧ content !! length urls
      = Some (VDict [("type", VStr "text"); ("text", VStr text)]).
Proof.
  intros Hne.
  exists (((fun url => image_block (VStr url)) <$> urls) ++ [text_block text]).
  split; [by apply create_message_images_closed_form|].
  split; [rewrite length_app, length_fmap; simpl; lia|].
  split.
  - intros i url Hi.
    rewrite lookup_app_l by (rewrite length_fmap; by eapply lookup_lt_Some).
    by rewrite list_lookup_fmap, Hi.
  - rewrite lookup_app_r by (by rewrite length_fmap).
    by rewrite length_fmap, Nat.sub_diag.
Qed.

Lemma create_message_with_images_witness :
  ∃ content : list value,
    create_message "Describe" (Some ["https://a/1.jpg"; ""; "https://a/1.jpg"])
    = VList [VDict [("role", VStr "user"); ("content", VList content)]]
    ∧ length content = 4%nat
    ∧ (∀ (i : nat) url,
         ["https://a/1.jpg"; ""; "https://a/1.jpg"] !! i = Some url →
         content !! i
         = Some (VDict [("type", VStr "image_url");
                        ("image_url", VDict [("url", VStr url)])]))
    ∧ content !! 3%nat
      = Some (VDict [("type", VStr "text"); ("text", VStr "Describe")]).
Proof.
  apply (create_message_with_images "Describe"
           ["https://a/1.jpg"; ""; "https://a/1.jpg"]).
  discriminate.
Defined.

(** The docstring examples of [create_message]. *)
Example create_message_hello :
  create_message "Hello world" None
  = VList [VDict [("role", VStr "user"); ("content", VStr "Hello world")]].
Proof. reflexivity. Qed.

Example create_message_one_image :
  create_message "What's this?" (Some ["https://example.com/img.jpg"])
  = VList [VDict [("role", VStr "user");
                  ("content",
                   VList [VDict [("type", VStr "image_url");
                                 ("image_url",
                                  VDict [("url",
                                          VStr "https://example.com/img.jpg")])];
                          VDict [("type", VStr "text");
                                 ("text", VStr "What's this?")]])]].
Proof. reflexivity. Qed.

(** C4: the default text is the single-image question for 0 and 1 images,
    and the template ["I have {N} images. Please describe each image."] for
    every other count: for every [N >= 2], and for every negative [N] too. *)
Theorem determine_default_text_cases :
  determine_default_text 0 = "What's in this image?"
  ∧ determine_default_text 1 = "What's in this image?"
  ∧ (∀ N : Z, 2 ≤ N →
       determine_default_text N
       = "I have " +:+ str_int N +:+ " images. Please describe each image.")
  ∧ (∀ N : Z, N < 0 →
       determine_default_text N
       = "I have " +:+ str_int N +:+ " images. Please describe each image.")
  ∧ determine_default_text 2
    = "I have 2 images. Please describe each image."
  ∧ determine_default_text 12
    = "I have 12 images. Please describe each image."
  ∧ determine_default_text (-1)
    = "I have -1 images. Please describe each image.".
Proof.
  split; [reflexivity|]. split; [reflexivity|].
  split; [|split; [|repeat split; reflexivity]].
  - intros N HN. unfold determine_default_text.
    destruct (Z.eqb_spec N 0); [lia|]. destruct (Z.eqb_spec N 1); [lia|done].
  - intros N HN. unfold determine_default_text.
    destruct (Z.eqb_spec N 0); [lia|]. destruct (Z.eqb_spec N 1); [lia|done].
Qed.

Lemma determine_default_text_cases_witness :
  determine_default_text 3
  = "I have " +:+ str_int 3 +:+ " images. Please describe each image."
  ∧ determine_default_text (-7)
    = "I have " +:+ str_int (-7) +:+ " images. Please describe each image.".
Proof.
  split.
  - apply (proj1 (proj2 (proj2 determine_default_text_cases)) 3). lia.
  - apply (proj1 (proj2 (proj2 (proj2 determine_default_text_cases))) (-7)).
    lia.
Defined.

End MessageProperties.

(** ** The heap embedding of [create_message] *)

Section MessageHeap.

Implicit Types (text : string) (h : heap) (l c : loc) (xs acc : list value).

Lemma alloc_list_fresh h l xs :
  h !! l = Some xs → l ≠ (alloc_list h).1.
Proof.
  intros Hl Heq. unfold alloc_list in Heq; simpl in Heq.
  apply (is_fresh (dom h)). rewrite <- Heq.
  apply elem_of_dom. eauto.
Qed.

Lemma list_append_lookup l v h xs :
  h !! l = Some xs → list_append l v h = Some (<[l := xs ++ [v]]> h).
Proof. intros Hl. unfold list_append. by rewrite Hl. Qed.

(** The loop, started at index [i] with [acc] already in [content], appends
    the blocks of the remaining items to [content] and touches nothing
    else, provided [content] is not the list iterated over.  The fuel is
    enough as soon as it exceeds the number of remaining items. *)
Lemma for_each_url_run fuel : ∀ i l c h xs acc,
  l ≠ c →
  h !! l = Some xs →
  h !! c = Some acc →
  (length xs - i < fuel)%nat →
  for_each_url fuel i l c h
  = Some (<[c := acc ++ (image_block <$> drop i xs)]> h).
Proof.
  induction fuel as [|fuel IH]; intros i l c h xs acc Hne Hl Hc Hfuel;
    [lia|].
  simpl. rewrite Hl. destruct (xs !! i) as [url|] eqn:Hi.
  - rewrite (list_append_lookup c _ h acc Hc).
    rewrite (IH (S i) l c _ xs (acc ++ [image_block url])); try done.
    + rewrite insert_insert_eq. rewrite (drop_S xs url i Hi).
      by rewrite fmap_cons, <- app_assoc.
    + by rewrite lookup_insert_ne.
    + by rewrite lookup_insert_eq.
    + apply lookup_lt_Some in Hi. lia.
  - apply lookup_ge_None in Hi. rewrite drop_ge by done.
    rewrite fmap_nil, app_nil_r. by rewrite insert_id.
Qed.

(** A call with a reference to a list: the only change to the heap is the
    new list [content]; the value returned depends on whether the list is
    empty. *)
Lemma create_message_heap_run text l h xs :
  h !! l = Some xs →
  create_message_heap text (Some l) h
  = Some (<[fresh (dom h) := (image_block <$> xs) ++ [text_block text]]> h,
          if bool_decide (xs = [])
          then VList [user_message (VStr text)]
          else VList [user_message
                        (VList ((image_block <$> xs) ++ [text_block text]))]).
Proof.
  intros Hl. pose proof (alloc_list_fresh h l xs Hl) as Hne.
  unfold create_message_heap, alloc_list in *. simpl in Hne.
  set (c := fresh (dom h)) in *.
  assert (Hl1 : (<[c := []]> h : heap) !! l = Some xs)
    by (by rewrite lookup_insert_ne).
  unfold truthy_ref at 1. rewrite Hl1.
  case_bool_decide as Hxs; cbn [negb].
  - subst xs.
    rewrite (list_append_lookup c _ _ []) by (by rewrite lookup_insert_eq).
    rewrite insert_insert_eq. unfold truthy_ref.
    rewrite lookup_insert_ne by done. rewrite Hl. by rewrite bool_decide_true.
  - rewrite (for_each_url_run _ 0 l c _ xs []); try done.
    + rewrite insert_insert_eq, drop_0, app_nil_l.
      rewrite (list_append_lookup c _ _ (image_block <$> xs))
        by (by rewrite lookup_insert_eq).
      rewrite insert_insert_eq. unfold truthy_ref.
      rewrite lookup_insert_ne by done. rewrite Hl.
      rewrite bool_decide_false by done. cbn [negb].
      by rewrite lookup_insert_eq.
    + by rewrite lookup_insert_eq.
    + unfold loop_fuel. rewrite Hl1. simpl. lia.
Qed.

(** A call without image URLs allocates [content] and returns the text. *)
Lemma create_message_heap_none text h :
  create_message_heap text None h
  = Some (<[fresh (dom h) := [text_block text]]> h,
          VList [user_message (VStr text)]).
Proof.
  unfold create_message_heap, alloc_list. simpl.
  rewrite (list_append_lookup _ _ _ []) by (by rewrite lookup_insert_eq).
  by rewrite insert_insert_eq.
Qed.

(** Every list that exists before the call is the same after it. *)
Lemma create_message_heap_frame text l h xs h' v l' :
  h !! l = Some xs →
  create_message_heap text (Some l) h = Some (h', v) →
  is_Some (h !! l') →
  h' !! l' = h !! l'.
Proof.
  intros Hl Hrun [ys Hl'].
  rewrite (create_message_heap_run text l h xs Hl) in Hrun.
  injection Hrun as <- _.
  apply lookup_insert_ne. intros Heq.
  by apply (alloc_list_fresh h l' ys Hl').
Qed.

(** C10: [create_message] does not mutate [image_urls].  Called with a
    reference to a list of URL strings, the heap embedding returns, the list
    at that reference holds the same elements in the same order afterwards,
    and the value returned is the one [create_message] computes from these
    elements. *)
Theorem create_message_leaves_image_urls text (urls : list string) l h :
  h !! l = Some (VStr <$> urls) →
  ∃ h' v,
    create_message_heap text (Some l) h = Some (h', v)
    ∧ h' !! l = Some (VStr <$> urls)
    ∧ v = create_message text (Some urls).
Proof.
  intros Hl. eexists _, _. split; [by apply create_message_heap_run|].
  split.
  - rewrite lookup_insert_ne; [done|].
    intros Heq. by apply (alloc_list_fresh h l _ Hl).
  - destruct urls as [|u urls]; [reflexivity|].
    rewrite bool_decide_false by done.
    rewrite create_message_images_closed_form by done.
    by rewrite <- list_fmap_compose.
Qed.

(** The heap embedding runs: one list before the call, the same list and
    the new [content] after it. *)
Example create_message_heap_two_urls :
  (fun '(h', v) => (h' !! 7%nat, h' !! 8%nat, size h', v))
    <$> create_message_heap "Describe" (Some 7%nat)
          {[ 7%nat := [VStr "https://a/1.jpg"; VStr "https://a/2.jpg"] ]}
  = Some (Some [VStr "https://a/1.jpg"; VStr "https://a/2.jpg"],
          Some [image_block (VStr "https://a/1.jpg");
                image_block (VStr "https://a/2.jpg");
                text_block "Describe"],
          2%nat,
          create_message "Describe"
            (Some ["https://a/1.jpg"; "https://a/2.jpg"])).
Proof. vm_compute. reflexivity. Qed.

Lemma create_message_leaves_image_urls_witness :
  ∃ h' v,
    create_message_heap "Describe" (Some 7%nat)
      {[ 7%nat := [VStr "https://a/1.jpg"; VStr "https://a/2.jpg"] ]}
    = Some (h', v)
    ∧ h' !! 7%nat = Some [VStr "https://a/1.jpg"; VStr "https://a/2.jpg"]
    ∧ v = create_message "Describe"
            (Some ["https://a/1.jpg"; "https://a/2.jpg"]).
Proof.
  apply (create_message_leaves_image_urls "Describe"
           ["https://a/1.jpg"; "https://a/2.jpg"] 7%nat
           {[ 7%nat := [VStr "https://a/1.jpg"; VStr "https://a/2.jpg"] ]}).
  apply lookup_singleton_eq.
Defined.

End MessageHeap.

(** ** The CLI fallback policy *)

Section CliProperties.

Implicit Types (text : string) (urls : list string).

(** C8: an explicit text is used as it is, with the image URLs as given
    (possibly none); without a text, a non-empty list of URLs gets the
    default text for its length; without a text and without URLs the result
    is the default text for one image and the single fallback URL. *)
Theorem determine_text_and_images_policy
    (text_arg : option string) (image_urls_arg : option (list string)) :
  (∀ text, text_arg = Some text →
     determine_text_and_images text_arg image_urls_arg
     = (text, image_urls_arg))
  ∧ (∀ urls, text_arg = None → image_urls_arg = Some urls → urls ≠ [] →
       determine_text_and_images text_arg image_urls_arg
       = (determine_default_text (Z.of_nat (length urls)), Some urls))
  ∧ (text_arg = None → image_urls_arg = None ∨ image_urls_arg = Some [] →
       determine_text_and_images text_arg image_urls_arg
       = (determine_default_text 1,
          Some ["https://github.com/alex-crouch/resources/blob/main/zsh-diskfree/images/servingsuggestion.gif?raw=true"])).
Proof.
  repeat split.
  - by intros text ->.
  - intros urls -> -> Hne. by destruct urls.
  - by intros -> [-> | ->].
Qed.

Lemma determine_text_and_images_policy_witness :
  determine_text_and_images (Some "") None = ("", None)
  ∧ determine_text_and_images None (Some ["a"; "b"; "c"])
    = ("I have 3 images. Please describe each image.", Some ["a"; "b"; "c"])
  ∧ determine_text_and_images None (Some [])
    = ("What's in this image?", Some [FALLBACK_IMAGE_URL]).
Proof.
  split; [|split].
  - apply (proj1 (determine_text_and_images_policy (Some "") None) "").
    reflexivity.
  - apply (proj1 (proj2 (determine_text_and_images_policy
                           None (Some ["a"; "b"; "c"]))) ["a"; "b"; "c"]);
      [reflexivity | reflexivity | discriminate].
  - apply (proj2 (proj2 (determine_text_and_images_policy None (Some []))));
      [reflexivity | right; reflexivity].
Defined.

(** The flattening of the nested [--image-url] groups keeps the order. *)
Lemma flatten_image_urls_concat (groups : list (list string)) :
  groups ≠ [] → flatten_image_urls (Some groups) = Some (concat groups).
Proof.
  intros Hne. unfold flatten_image_urls. destruct groups as [|g groups];
    [done|]. cbn [truthy_list default]. f_equal.
  assert (Hgen : ∀ (gs : list (list string)) acc,
             foldl (fun acc url_group => acc ++ url_group) acc gs
             = acc ++ concat gs).
  { induction gs as [|g' gs IH]; intros acc; simpl.
    - by rewrite app_nil_r.
    - by rewrite IH, app_assoc. }
  apply (Hgen (g :: groups) []).
Qed.

End CliProperties.

(** ** Client configuration *)

Section ClientInit.

Variable py_int : string → exn + Z.

Implicit Types (environ : gmap string string) (c : SGLangMistralClient).

Lemma truthy_str_false (o : option string) :
  truthy_str o = false ↔ o = None ∨ o = Some "".
Proof.
  destruct o as [s|]; simpl.
  - destruct (String.eqb_spec s ""); simpl; split;
      [intros _; right; congruence | done | done | intros [?|?]; congruence].
  - split; [by left | done].
Qed.

Lemma truthy_int_false (o : option Z) :
  truthy_int o = false ↔ o = None ∨ o = Some 0.
Proof.
  destruct o as [n|]; simpl.
  - destruct (Z.eqb_spec n 0); simpl; split;
      [intros _; right; congruence | done | done | intros [?|?]; congruence].
  - split; [by left | done].
Qed.

(** What a constructed client holds, field by field. *)
Lemma init_fields environ host_arg port_arg model_arg c :
  init py_int environ host_arg port_arg model_arg = inr c →
  host c = (if truthy_str host_arg then default "" host_arg
            else getenv environ "SGLANG_HOST" "localhost")
  ∧ (if truthy_int port_arg then inr (default 0 port_arg)
     else py_int (getenv environ "SGLANG_PORT" "30000")) = inr (port c)
  ∧ model c = (if truthy_str model_arg then default "" model_arg
               else DEFAULT_MODEL)
  ∧ base_url c = "http://" +:+ host c +:+ ":" +:+ str_int (port c).
Proof.
  unfold init, DEFAULT_HOST, DEFAULT_PORT. intros Hinit.
  destruct (if truthy_int port_arg then _ else _) as [e|p0]; [done|].
  by injection Hinit as <-.
Qed.

(** The constructor returns unless [int] has to be called and raises; then
    it raises the same exception. *)
Lemma init_returns environ host_arg port_arg model_arg :
  (∀ p, port_arg = Some p → p ≠ 0 →
     ∃ c, init py_int environ host_arg port_arg model_arg = inr c)
  ∧ (∀ n, port_arg = None ∨ port_arg = Some 0 →
       py_int (getenv environ "SGLANG_PORT" "30000") = inr n →
       ∃ c, init py_int environ host_arg port_arg model_arg = inr c)
  ∧ (∀ e, port_arg = None ∨ port_arg = Some 0 →
       py_int (getenv environ "SGLANG_PORT" "30000") = inl e →
       init py_int environ host_arg port_arg model_arg = inl e).
Proof.
  unfold init, DEFAULT_PORT. split; [|split].
  - intros p -> Hp. simpl. destruct (Z.eqb_spec p 0); [done|]. simpl. eauto.
  - intros n Hport Hint. apply truthy_int_false in Hport.
    rewrite Hport, Hint. eauto.
  - intros e Hport Hint. apply truthy_int_false in Hport.
    by rewrite Hport, Hint.
Qed.

(** C1, as the constructor implements it.  Host and port: the explicit
    argument when it is given and truthy (a non-empty host, a non-zero
    port), else the environment variable [SGLANG_HOST], respectively [int]
    of [SGLANG_PORT], when it is set, else ["localhost"], respectively
    [30000].  Model: the explicit argument when it is given and non-empty,
    else the fixed model identifier, whatever the environment holds.  Each
    field depends on its own argument and variable only. *)
Theorem init_resolution_order environ host_arg port_arg model_arg c :
  py_int "30000" = inr 30000 →
  init py_int environ host_arg port_arg model_arg = inr c →
  (∀ h, host_arg = Some h → h ≠ "" → host c = h)
  ∧ (∀ v, host_arg = None ∨ host_arg = Some "" →
       environ !! "SGLANG_HOST" = Some v → host c = v)
  ∧ (host_arg = None ∨ host_arg = Some "" →
       environ !! "SGLANG_HOST" = None → host c = "localhost")
  ∧ (∀ p, port_arg = Some p → p ≠ 0 → port c = p)
  ∧ (∀ v, port_arg = None ∨ port_arg = Some 0 →
       environ !! "SGLANG_PORT" = Some v → py_int v = inr (port c))
  ∧ (port_arg = None ∨ port_arg = Some 0 →
       environ !! "SGLANG_PORT" = None → port c = 30000)
  ∧ (∀ m, model_arg = Some m → m ≠ "" → model c = m)
  ∧ (model_arg = None ∨ model_arg = Some "" →
       model c
       = "OPEA/Mistral-Small-3.1-24B-Instruct-2503-int4-AutoRound-awq-sym")
  ∧ base_url c = "http://" +:+ host c +:+ ":" +:+ str_int (port c).
Proof.
  intros Hdefault Hinit.
  destruct (init_fields _ _ _ _ _ Hinit) as (Hhost & Hport & Hmodel & Hurl).
  unfold getenv in *.
  split; [|split; [|split; [|split; [|split; [|split; [|split; [|split]]]]]]].
  - intros h -> Hh. rewrite Hhost. simpl.
    by destruct (String.eqb_spec h "").
  - intros v Habsent Hv. apply truthy_str_false in Habsent.
    by rewrite Hhost, Habsent, Hv.
  - intros Habsent Hv. apply truthy_str_false in Habsent.
    by rewrite Hhost, Habsent, Hv.
  - intros p -> Hp. simpl in Hport.
    destruct (Z.eqb_spec p 0); [done|]. simpl in Hport. congruence.
  - intros v Habsent Hv. apply truthy_int_false in Habsent.
    by rewrite Habsent, Hv in Hport.
  - intros Habsent Hv. apply truthy_int_false in Habsent.
    rewrite Habsent, Hv in Hport. congruence.
  - intros m -> Hm. rewrite Hmodel. simpl.
    by destruct (String.eqb_spec m "").
  - intros Habsent. apply truthy_str_false in Habsent.
    by rewrite Hmodel, Habsent.
  - done.
Qed.

(** C9: an explicit but falsy argument is treated as absent.  An empty host
    yields the environment variable or ["localhost"], a zero port yields
    [int] of the environment variable or of ["30000"], an empty model yields
    the fixed identifier, exactly as if the argument had not been passed; so
    the argument does not win: with no variable set, the host stored is
    ["localhost"] and not the empty string that was passed. *)
Theorem init_falsy_argument_is_absent environ host_arg port_arg model_arg c :
  init py_int environ host_arg port_arg model_arg = inr c →
  (host_arg = Some "" → host c = getenv environ "SGLANG_HOST" "localhost")
  ∧ (host_arg = Some "" → environ !! "SGLANG_HOST" = None →
       host c = "localhost" ∧ Some (host c) ≠ host_arg)
  ∧ (port_arg = Some 0 →
       py_int (getenv environ "SGLANG_PORT" "30000") = inr (port c))
  ∧ (model_arg = Some "" → model c = DEFAULT_MODEL)
  ∧ (host_arg = Some "" →
       init py_int environ None port_arg model_arg = inr c)
  ∧ (port_arg = Some 0 →
       init py_int environ host_arg None model_arg = inr c)
  ∧ (model_arg = Some "" →
       init py_int environ host_arg port_arg None = inr c).
Proof.
  intros Hinit.
  destruct (init_fields _ _ _ _ _ Hinit) as (Hhost & Hport & Hmodel & Hurl).
  split; [|split; [|split; [|split; [|split; [|split]]]]].
  - intros ->. by rewrite Hhost.
  - intros -> Henv. rewrite Hhost. unfold getenv. rewrite Henv. simpl.
    split; [done|]. intros Heq. discriminate Heq.
  - by intros ->.
  - intros ->. by rewrite Hmodel.
  - by intros ->.
  - by intros ->.
  - by intros ->.
Qed.

End ClientInit.

(** The scenarios of the test suite, run on the plain decimal [int]. *)
Example init_with_defaults :
  init decimal_int ∅ None None None = inr default_client.
Proof. reflexivity. Qed.

Example init_with_env_vars :
  init decimal_int test_environ None None None
  = inr {| host := "env-host"; port := 8080; model := DEFAULT_MODEL;
           base_url := "http://env-host:8080" |}.
Proof. vm_compute. reflexivity. Qed.

Example init_custom_overrides_env :
  init decimal_int test_environ (Some "override-host") (Some 9999) None
  = inr {| host := "override-host"; port := 9999; model := DEFAULT_MODEL;
           base_url := "http://override-host:9999" |}.
Proof. vm_compute. reflexivity. Qed.

Example init_port_not_a_number :
  init decimal_int {[ "SGLANG_PORT" := "http" ]} (Some "h") None None
  = inl (Exn ValueError "invalid literal for int() with base 10: 'http'").
Proof. vm_compute. reflexivity. Qed.

Lemma init_resolution_order_witness :
  (host {| host := "override-host"; port := 9999; model := "custom-model";
           base_url := "http://override-host:9999" |} = "override-host"
   ∧ port {| host := "override-host"; port := 9999; model := "custom-model";
             base_url := "http://override-host:9999" |} = 9999
   ∧ model {| host := "override-host"; port := 9999; model := "custom-model";
              base_url := "http://override-host:9999" |} = "custom-model")
  ∧ (host {| host := "env-host"; port := 8080; model := DEFAULT_MODEL;
             base_url := "http://env-host:8080" |} = "env-host"
     ∧ decimal_int "8080"
       = inr (port {| host := "env-host"; port := 8080;
                      model := DEFAULT_MODEL;
                      base_url := "http://env-host:8080" |})
     ∧ model {| host := "env-host"; port := 8080; model := DEFAULT_MODEL;
                base_url := "http://env-host:8080" |}
       = "OPEA/Mistral-Small-3.1-24B-Instruct-2503-int4-AutoRound-awq-sym")
  ∧ (host default_client = "localhost"
     ∧ port default_client = 30000
     ∧ model default_client
       = "OPEA/Mistral-Small-3.1-24B-Instruct-2503-int4-AutoRound-awq-sym"
     ∧ base_url default_client
       = "http://" +:+ host default_client +:+ ":"
         +:+ str_int (port default_client)).
Proof.
  split; [|split].
  - (* explicit truthy arguments, with the three variables set *)
    assert (Hinit : init decimal_int test_environ (Some "override-host")
                      (Some 9999) (Some "custom-model")
                    = inr {| host := "override-host"; port := 9999;
                             model := "custom-model";
                             base_url := "http://override-host:9999" |})
      by (vm_compute; reflexivity).
    pose proof (init_resolution_order decimal_int test_environ
                  (Some "override-host") (Some 9999) (Some "custom-model")
                  _ eq_refl Hinit)
      as (Hhost & _ & _ & Hport & _ & _ & Hmodel & _ & _).
    split; [apply (Hhost "override-host"); [reflexivity | discriminate]|].
    split; [apply (Hport 9999); [reflexivity | lia]|].
    apply (Hmodel "custom-model"); [reflexivity | discriminate].
  - (* no arguments, with the three variables set *)
    assert (Hinit : init decimal_int test_environ None None None
                    = inr {| host := "env-host"; port := 8080;
                             model := DEFAULT_MODEL;
                             base_url := "http://env-host:8080" |})
      by (vm_compute; reflexivity).
    pose proof (init_resolution_order decimal_int test_environ
                  None None None _ eq_refl Hinit)
      as (_ & Hhost & _ & _ & Hport & _ & _ & Hmodel & _).
    split; [apply (Hhost "env-host"); [by left | vm_compute; reflexivity]|].
    split; [apply (Hport "8080"); [by left | vm_compute; reflexivity]|].
    apply Hmodel. by left.
  - (* no arguments, no variable set *)
    pose proof (init_resolution_order decimal_int ∅ None None None
                  default_client eq_refl eq_refl)
      as (_ & _ & Hhost & _ & _ & Hport & _ & Hmodel & Hurl).
    split; [apply Hhost; [by left | reflexivity]|].
    split; [apply Hport; [by left | reflexivity]|].
    split; [apply Hmodel; by left|].
    exact Hurl.
Defined.

(** C1 as stated fails on the code.  With the three variables set and the
    constructor called with an empty host, a zero port and no model, the
    stated order would store the empty host, port [0] and the model of the
    environment; the constructor stores the host and port of the environment
    and the fixed model identifier. *)
Lemma init_resolution_order_counterexample :
  ∃ c,
    init decimal_int test_environ (Some "") (Some 0) None = inr c
    ∧ host c = "env-host"
    ∧ host c ≠ resolve_as_specified (Some "")
                 (test_environ !! "SGLANG_HOST") "localhost"
    ∧ port c = 8080
    ∧ port c ≠ resolve_as_specified (Some 0) (Some 8080) 30000
    ∧ model c = DEFAULT_MODEL
    ∧ model c ≠ resolve_as_specified None
                  (test_environ !! "SGLANG_MODEL") DEFAULT_MODEL.
Proof.
  eexists. split; [vm_compute; reflexivity|]. simpl.
  repeat split; try reflexivity; vm_compute; intros H; discriminate H.
Defined.

Lemma init_falsy_argument_is_absent_witness :
  (host default_client = "localhost"
   ∧ Some (host default_client) ≠ Some "")
  ∧ decimal_int (getenv ∅ "SGLANG_PORT" "30000") = inr (port default_client)
  ∧ model default_client = DEFAULT_MODEL.
Proof.
  pose proof (init_falsy_argument_is_absent decimal_int ∅
                (Some "") (Some 0) (Some "") default_client eq_refl)
    as (_ & Hhost & Hport & Hmodel & _).
  split; [apply Hhost; reflexivity|].
  split; [apply Hport; reflexivity | apply Hmodel; reflexivity].
Defined.

(** ** Requests *)

Section ClientRequests.

Variable net : Network.

Implicit Types (self : SGLangMistralClient) (messages : value)
  (max_tokens : Z) (kwargs : gmap string value) (t : list event)
  (r : Response) (e : exn).

(** The statuses on which [raise_for_status] raises. *)
Lemma http_error_msg_Some r :
  400 ≤ status_code r < 600 ↔ is_Some (http_error_msg r).
Proof.
  unfold http_error_msg.
  destruct (Z.leb_spec 400 (status_code r)), (Z.ltb_spec (status_code r) 500),
    (Z.leb_spec 500 (status_code r)), (Z.ltb_spec (status_code r) 600);
    simpl; split; intros Hr; try lia; try (by eexists);
    by destruct Hr as [? Hr].
Qed.

Lemma http_error_msg_None r :
  ¬ (400 ≤ status_code r < 600) ↔ http_error_msg r = None.
Proof.
  rewrite http_error_msg_Some, <- eq_None_not_Some. done.
Qed.

(** The body sent: every entry of [kwargs], and the three entries of the
    literal under the keys that [kwargs] does not have. *)
Lemma request_data_lookup self messages max_tokens kwargs (k : string) :
  request_data self messages max_tokens kwargs !! k
  = match kwargs !! k with
    | Some v => Some v
    | None =>
        if decide (k = "model") then Some (VStr (model self))
        else if decide (k = "messages") then Some messages
        else if decide (k = "max_tokens") then Some (VInt max_tokens)
        else None
    end.
Proof.
  unfold request_data. destruct (kwargs !! k) as [v|] eqn:Hk.
  - by apply lookup_union_Some_l.
  - rewrite lookup_union_r by done.
    repeat case_decide; subst; by simplify_map_eq.
Qed.

(** [make_request], outcome by outcome of the POST. *)
Lemma make_request_run self messages max_tokens kwargs t :
  let url := base_url self +:+ "/v1/chat/completions" in
  let data := request_data self messages max_tokens kwargs in
  make_request net self messages max_tokens kwargs t
  = match http_post net url data with
    | inl e =>
        if is_RequestException e
        then (t ++ [POST url data; STDERR (error_line url e)], inl e)
        else (t ++ [POST url data], inl e)
    | inr r =>
        match http_error_msg r with
        | Some msg =>
            (t ++ [POST url data;
                   STDERR (error_line url (Exn HTTPError msg))],
             inl (Exn HTTPError msg))
        | None =>
            match json_outcome r with
            | inr v => (t ++ [POST url data], inr v)
            | inl msg =>
                (t ++ [POST url data;
                       STDERR (error_line url (Exn JSONDecodeError msg))],
                 inl (Exn JSONDecodeError msg))
            end
        end
    end.
Proof.
  intros url data.
  unfold make_request, try_except, bind, requests_post, raise_for_status,
    response_json, log_and_reraise, print_stderr, emit, raise, ret, bind.
  fold url data.
  destruct (http_post net url data) as [e|r].
  - destruct (is_RequestException e); [|done]. by rewrite <- app_assoc.
  - destruct (http_error_msg r) as [msg|]; simpl.
    + by rewrite <- app_assoc.
    + destruct (json_outcome r) as [msg|v]; simpl; [|done].
      by rewrite <- app_assoc.
Qed.

(** [make_request_raw], outcome by outcome of the POST. *)
Lemma make_request_raw_run self messages max_tokens kwargs t :
  let url := base_url self +:+ "/v1/chat/completions" in
  let data := request_data self messages max_tokens kwargs in
  make_request_raw net self messages max_tokens kwargs t
  = match http_post net url data with
    | inl e =>
        if is_RequestException e
        then (t ++ [POST url data; STDERR (error_line url e)], inl e)
        else (t ++ [POST url data], inl e)
    | inr r =>
        match http_error_msg r with
        | Some msg =>
            (t ++ [POST url data;
                   STDERR (error_line url (Exn HTTPError msg))],
             inl (Exn HTTPError msg))
        | None => (t ++ [POST url data], inr (text r))
        end
    end.
Proof.
  intros url data.
  unfold make_request_raw, try_except, bind, requests_post, raise_for_status,
    log_and_reraise, print_stderr, emit, raise, ret, bind.
  fold url data.
  destruct (http_post net url data) as [e|r].
  - destruct (is_RequestException e); [|done]. by rewrite <- app_assoc.
  - destruct (http_error_msg r) as [msg|]; simpl; [|done].
    by rewrite <- app_assoc.
Qed.

(** [health_check], outcome by outcome of the GET. *)
Lemma health_check_run self t :
  let url := base_url self +:+ "/health" in
  health_check net self t
  = match http_get net url 5 with
    | inl e =>
        if is_RequestException e
        then (t ++ [GET url 5], inr false)
        else (t ++ [GET url 5], inl e)
    | inr r => (t ++ [GET url 5], inr (status_code r =? 200))
    end.
Proof.
  intros url.
  unfold health_check, try_except, bind, requests_get, ret. fold url.
  destruct (http_get net url 5) as [e|r]; [|done].
  by destruct (is_RequestException e).
Qed.

End ClientRequests.

(** ** The liveness probe *)

(** C5: [health_check] sends one GET to [{base_url}/health]; it returns
    [True] exactly when that GET yields a response with status 200; a
    response with another status and a transport exception both yield
    [False]; and whatever the transport does, it returns and does not
    raise. *)
Theorem health_check_true_iff_200 (net : Network)
    (self : SGLangMistralClient) (t : list event) :
  let url := base_url self +:+ "/health" in
  (health_check net self t).1 = t ++ [GET url 5]
  ∧ ((health_check net self t).2 = inr true
     ↔ ∃ r, http_get net url 5 = inr r ∧ status_code r = 200)
  ∧ (∀ r, http_get net url 5 = inr r → status_code r ≠ 200 →
       (health_check net self t).2 = inr false)
  ∧ (∀ e, http_get net url 5 = inl e → is_RequestException e = true →
       (health_check net self t).2 = inr false)
  ∧ (transport_outcome (http_get net url 5) →
       ∃ b : bool, (health_check net self t).2 = inr b).
Proof.
  intros url. rewrite (health_check_run net self t). fold url.
  destruct (http_get net url 5) as [e|r] eqn:Hget.
  - split; [by destruct (is_RequestException e)|].
    split; [|split; [done|split]].
    + split.
      * destruct (is_RequestException e); simpl; intros Heq; congruence.
      * by intros (r & Hr & _).
    + intros e' [= <-] ->. done.
    + simpl. intros ->. by exists false.
  - simpl. split; [done|]. split; [|split; [|split; [done|]]].
    + split.
      * intros [= Hs]. exists r. split; [done|]. by apply Z.eqb_eq.
      * intros (r' & [= <-] & Hs). by rewrite Hs.
    + intros r' [= <-] Hs. f_equal. by apply Z.eqb_neq.
    + intros _. by eexists.
Qed.

Lemma health_check_true_iff_200_witness :
  (health_check (constant_network (inl connection_refused)) test_client []).2
  = inr false
  ∧ (health_check (constant_network (inl read_timeout)) test_client []).2
    = inr false
  ∧ (health_check (constant_network (inr (json_response 503 "Service Unavailable")))
       test_client []).2
    = inr false
  ∧ ∃ b : bool,
      (health_check (constant_network (inr (json_response 200 "OK")))
         test_client []).2
      = inr b.
Proof.
  split; [|split; [|split]].
  - apply (proj1 (proj2 (proj2 (proj2
             (health_check_true_iff_200
                (constant_network (inl connection_refused)) test_client []))))
             connection_refused); reflexivity.
  - apply (proj1 (proj2 (proj2 (proj2
             (health_check_true_iff_200
                (constant_network (inl read_timeout)) test_client []))))
             read_timeout); reflexivity.
  - apply (proj1 (proj2 (proj2
             (health_check_true_iff_200
                (constant_network (inr (json_response 503 "Service Unavailable")))
                test_client [])))
             (json_response 503 "Service Unavailable")); [reflexivity|].
    simpl. lia.
  - apply (proj2 (proj2 (proj2 (proj2
             (health_check_true_iff_200
                (constant_network (inr (json_response 200 "OK")))
                test_client []))))).
    exact I.
Defined.

Example health_check_healthy :
  health_check (constant_network (inr (json_response 200 "OK"))) test_client []
  = ([GET "http://test-host:9999/health" 5], inr true).
Proof. reflexivity. Qed.

(** An exception that is not a [RequestException] is not caught. *)
Example health_check_interrupted :
  health_check (constant_network (inl interrupted)) test_client []
  = ([GET "http://test-host:9999/health" 5], inl interrupted).
Proof. reflexivity. Qed.

(** ** The two request operations *)

(** C6, as the code implements it.  [make_request] POSTs the body built
    from the model, the messages, [max_tokens] and the extra keyword
    parameters to [{base_url}/v1/chat/completions].  When the POST raises,
    the same exception reaches the caller: after the error line is printed
    when it is an exception of the [requests] library, and with nothing
    printed otherwise.  When the response has a status from 400 to 599, an
    [HTTPError] is printed and raised.  For every other status, 2xx or not,
    the outcome is that of decoding the body: when it decodes, the decoded
    JSON is returned and nothing is printed; when it does not, the decoding
    error is printed and raised. *)
Theorem make_request_outcomes (net : Network) (self : SGLangMistralClient)
    (messages : value) (max_tokens : Z) (kwargs : gmap string value)
    (t : list event) :
  let url := base_url self +:+ "/v1/chat/completions" in
  let data := request_data self messages max_tokens kwargs in
  (∀ k v, kwargs !! k = Some v → data !! k = Some v)
  ∧ (kwargs !! "model" = None → data !! "model" = Some (VStr (model self)))
  ∧ (kwargs !! "messages" = None → data !! "messages" = Some messages)
  ∧ (kwargs !! "max_tokens" = None →
       data !! "max_tokens" = Some (VInt max_tokens))
  ∧ dom data = dom kwargs ∪ {["model"; "messages"; "max_tokens"]}
  ∧ (∃ log, (make_request net self messages max_tokens kwargs t).1
            = t ++ POST url data :: log
            ∧ (log = [] ∨ ∃ line, log = [STDERR line]))
  ∧ (∀ e, http_post net url data = inl e →
       (make_request net self messages max_tokens kwargs t).2 = inl e)
  ∧ (∀ e, http_post net url data = inl e → is_RequestException e = true →
       make_request net self messages max_tokens kwargs t
       = (t ++ [POST url data; STDERR (error_line url e)], inl e))
  ∧ (∀ r, http_post net url data = inr r → 400 ≤ status_code r < 600 →
       ∃ e, exn_cls e = HTTPError
            ∧ make_request net self messages max_tokens kwargs t
              = (t ++ [POST url data; STDERR (error_line url e)], inl e))
  ∧ (∀ r v, http_post net url data = inr r →
       ¬ (400 ≤ status_code r < 600) → json_outcome r = inr v →
       make_request net self messages max_tokens kwargs t
       = (t ++ [POST url data], inr v))
  ∧ (∀ e, http_post net url data = inl e → is_RequestException e = false →
       make_request net self messages max_tokens kwargs t
       = (t ++ [POST url data], inl e))
  ∧ (∀ r msg, http_post net url data = inr r →
       ¬ (400 ≤ status_code r < 600) → json_outcome r = inl msg →
       make_request net self messages max_tokens kwargs t
       = (t ++ [POST url data;
                STDERR (error_line url (Exn JSONDecodeError msg))],
          inl (Exn JSONDecodeError msg))).
Proof.
  intros url data.
  pose proof (request_data_lookup self messages max_tokens kwargs) as Hdata.
  fold data in Hdata.
  rewrite (make_request_run net self messages max_tokens kwargs t).
  fold url data.
  split; [|split; [|split; [|split; [|split; [|split;
    [|split; [|split; [|split; [|split; [|split]]]]]]]]]].
  - intros k v Hk. by rewrite Hdata, Hk.
  - intros Hk. by rewrite Hdata, Hk.
  - intros Hk. by rewrite Hdata, Hk.
  - intros Hk. by rewrite Hdata, Hk.
  - unfold data, request_data. rewrite dom_union_L.
    rewrite !dom_insert_L, dom_singleton_L. set_solver.
  - destruct (http_post net url data) as [e|r];
      [destruct (is_RequestException e)
      |destruct (http_error_msg r) as [msg|];
         [|destruct (json_outcome r) as [msg|v]]];
      simpl; eexists; (split; [reflexivity|]);
      first [by left | right; by eexists].
  - intros e ->. by destruct (is_RequestException e).
  - by intros e -> ->.
  - intros r -> Hs. apply http_error_msg_Some in Hs as [msg ->].
    by exists (Exn HTTPError msg).
  - intros r v -> Hs Hv. apply http_error_msg_None in Hs. by rewrite Hs, Hv.
  - by intros e -> ->.
  - intros r msg -> Hs Hmsg. apply http_error_msg_None in Hs.
    by rewrite Hs, Hmsg.
Qed.

Lemma make_request_outcomes_witness :
  make_request (constant_network (inl connection_refused)) test_client
    (create_message "Hello" None) 300 ∅ []
  = ([POST "http://test-host:9999/v1/chat/completions"
        (request_data test_client (create_message "Hello" None) 300 ∅);
      STDERR "Error making request to http://test-host:9999/v1/chat/completions: Connection failed"],
     inl connection_refused)
  ∧ (∃ e, exn_cls e = HTTPError
          ∧ make_request
              (constant_network (inr (json_response 500 "Internal Server Error")))
              test_client (create_message "Hello" None) 300 ∅ []
            = ([POST "http://test-host:9999/v1/chat/completions"
                  (request_data test_client (create_message "Hello" None) 300 ∅);
                STDERR (error_line "http://test-host:9999/v1/chat/completions" e)],
               inl e))
  ∧ make_request (constant_network (inr (json_response 200 "OK"))) test_client
      (create_message "Hello" None) 300 ∅ []
    = ([POST "http://test-host:9999/v1/chat/completions"
          (request_data test_client (create_message "Hello" None) 300 ∅)],
       inr (VDict []))
  ∧ make_request (constant_network (inl interrupted)) test_client
      (create_message "Hello" None) 300 ∅ []
    = ([POST "http://test-host:9999/v1/chat/completions"
          (request_data test_client (create_message "Hello" None) 300 ∅)],
       inl interrupted)
  ∧ make_request (constant_network (inr (html_response 200 "OK"))) test_client
      (create_message "Hello" None) 300 ∅ []
    = ([POST "http://test-host:9999/v1/chat/completions"
          (request_data test_client (create_message "Hello" None) 300 ∅);
        STDERR "Error making request to http://test-host:9999/v1/chat/completions: Expecting value: line 1 column 1 (char 0)"],
       inl (Exn JSONDecodeError "Expecting value: line 1 column 1 (char 0)")).
Proof.
  split; [|split; [|split; [|split]]].
  - apply (proj1 (proj2 (proj2 (proj2 (proj2 (proj2 (proj2 (proj2
             (make_request_outcomes
                (constant_network (inl connection_refused)) test_client
                (create_message "Hello" None) 300 ∅ []))))))))
             connection_refused); reflexivity.
  - apply (proj1 (proj2 (proj2 (proj2 (proj2 (proj2 (proj2 (proj2 (proj2
             (make_request_outcomes
                (constant_network
                   (inr (json_response 500 "Internal Server Error")))
                test_client (create_message "Hello" None) 300 ∅ [])))))))))
             (json_response 500 "Internal Server Error"));
      [reflexivity | simpl; lia].
  - apply (proj1 (proj2 (proj2 (proj2 (proj2 (proj2 (proj2 (proj2 (proj2
             (proj2
             (make_request_outcomes
                (constant_network (inr (json_response 200 "OK"))) test_client
                (create_message "Hello" None) 300 ∅ []))))))))))
             (json_response 200 "OK") (VDict []));
      [reflexivity | simpl; lia | reflexivity].
  - apply (proj1 (proj2 (proj2 (proj2 (proj2 (proj2 (proj2 (proj2 (proj2
             (proj2 (proj2
             (make_request_outcomes
                (constant_network (inl interrupted)) test_client
                (create_message "Hello" None) 300 ∅ [])))))))))))
             interrupted); reflexivity.
  - apply (proj2 (proj2 (proj2 (proj2 (proj2 (proj2 (proj2 (proj2 (proj2
             (proj2 (proj2
             (make_request_outcomes
                (constant_network (inr (html_response 200 "OK"))) test_client
                (create_message "Hello" None) 300 ∅ [])))))))))))
             (html_response 200 "OK")
             "Expecting value: line 1 column 1 (char 0)");
      [reflexivity | simpl; lia | reflexivity].
Defined.

(** C6 as stated fails on the code: a response with status 300, whose body
    is a JSON document, is not a 2xx response, yet [make_request] raises
    nothing and prints nothing; it returns the decoded body. *)
Lemma make_request_non_2xx_counterexample :
  ¬ (200 ≤ status_code (json_response 300 "Multiple Choices") < 300)
  ∧ make_request
      (constant_network (inr (json_response 300 "Multiple Choices")))
      test_client (create_message "Hello" None) 300 ∅ []
    = ([POST "http://test-host:9999/v1/chat/completions"
          (request_data test_client (create_message "Hello" None) 300 ∅)],
       inr (VDict [])).
Proof. split; [simpl; lia | reflexivity]. Qed.

(** The request bodies that the test suite expects. *)
Example request_data_default :
  request_data test_client (create_message "Hello" None) 300 ∅
  = {[ "model" := VStr "test-model";
       "messages" := VList [VDict [("role", VStr "user");
                                   ("content", VStr "Hello")]];
       "max_tokens" := VInt 300 ]}.
Proof. vm_compute. reflexivity. Qed.

Example request_data_with_kwargs :
  request_data test_client (create_message "Hello" None) 400
    {[ "top_k" := VInt 5; "stop" := VStr "." ]}
  = {[ "model" := VStr "test-model";
       "messages" := VList [VDict [("role", VStr "user");
                                   ("content", VStr "Hello")]];
       "max_tokens" := VInt 400;
       "top_k" := VInt 5;
       "stop" := VStr "." ]}.
Proof. vm_compute. reflexivity. Qed.

(** A [model] keyword parameter replaces the model of the client. *)
Example request_data_model_kwarg :
  request_data test_client VNone 300 {[ "model" := VStr "other" ]} !! "model"
  = Some (VStr "other").
Proof. vm_compute. reflexivity. Qed.

(** C7, as the code implements it.  For the same arguments
    [make_request_raw] sends the same body to the same URL as
    [make_request].  Whenever the POST raises or the status is from 400 to
    599 both raise the same exception after the same output, and
    [make_request_raw] raises in no other case.  For every other response
    [make_request_raw] returns the body text and prints nothing, while
    [make_request] decodes that body: it returns the decoded JSON when the
    body decodes, and prints and raises the decoding error when it does
    not. *)
Theorem make_request_raw_agrees (net : Network) (self : SGLangMistralClient)
    (messages : value) (max_tokens : Z) (kwargs : gmap string value)
    (t : list event) :
  let url := base_url self +:+ "/v1/chat/completions" in
  let data := request_data self messages max_tokens kwargs in
  (∃ log log',
     (make_request_raw net self messages max_tokens kwargs t).1
     = t ++ POST url data :: log
     ∧ (make_request net self messages max_tokens kwargs t).1
       = t ++ POST url data :: log'
     ∧ (log = [] ∨ ∃ line, log = [STDERR line])
     ∧ (log' = [] ∨ ∃ line, log' = [STDERR line]))
  ∧ (∀ e, http_post net url data = inl e →
       ∃ tr, make_request_raw net self messages max_tokens kwargs t
             = (tr, inl e)
             ∧ make_request net self messages max_tokens kwargs t
               = (tr, inl e))
  ∧ (∀ r, http_post net url data = inr r → 400 ≤ status_code r < 600 →
       ∃ tr e, exn_cls e = HTTPError
               ∧ make_request_raw net self messages max_tokens kwargs t
                 = (tr, inl e)
               ∧ make_request net self messages max_tokens kwargs t
                 = (tr, inl e))
  ∧ (∀ tr e, make_request_raw net self messages max_tokens kwargs t
             = (tr, inl e) →
       make_request net self messages max_tokens kwargs t = (tr, inl e))
  ∧ (∀ r, http_post net url data = inr r → ¬ (400 ≤ status_code r < 600) →
       make_request_raw net self messages max_tokens kwargs t
       = (t ++ [POST url data], inr (text r))
       ∧ ∀ v, json_outcome r = inr v →
           make_request net self messages max_tokens kwargs t
           = (t ++ [POST url data], inr v))
  ∧ (∀ r msg, http_post net url data = inr r →
       ¬ (400 ≤ status_code r < 600) → json_outcome r = inl msg →
       make_request_raw net self messages max_tokens kwargs t
       = (t ++ [POST url data], inr (text r))
       ∧ make_request net self messages max_tokens kwargs t
         = (t ++ [POST url data;
                  STDERR (error_line url (Exn JSONDecodeError msg))],
            inl (Exn JSONDecodeError msg))).
Proof.
  intros url data.
  rewrite (make_request_run net self messages max_tokens kwargs t).
  rewrite (make_request_raw_run net self messages max_tokens kwargs t).
  fold url data.
  split; [|split; [|split; [|split; [|split]]]].
  - destruct (http_post net url data) as [e|r];
      [destruct (is_RequestException e)
      |destruct (http_error_msg r) as [msg|];
         [|destruct (json_outcome r) as [msg|v]]];
      simpl; eexists _, _; (split; [reflexivity|]);
      (split; [reflexivity|]);
      split; first [by left | right; by eexists].
  - intros e ->. destruct (is_RequestException e); by eexists.
  - intros r -> Hs. apply http_error_msg_Some in Hs as [msg ->].
    eexists _, (Exn HTTPError msg). by split.
  - intros tr e. destruct (http_post net url data) as [e'|r].
    + destruct (is_RequestException e'); by intros [= <- <-].
    + destruct (http_error_msg r) as [msg|]; [by intros [= <- <-]|done].
  - intros r -> Hs. apply http_error_msg_None in Hs. rewrite Hs.
    split; [done|]. by intros v ->.
  - intros r msg -> Hs Hmsg. apply http_error_msg_None in Hs.
    by rewrite Hs, Hmsg.
Qed.

Lemma make_request_raw_agrees_witness :
  (∃ tr, make_request_raw (constant_network (inl read_timeout)) test_client
           (create_message "Hello" None) 300 ∅ []
         = (tr, inl read_timeout)
         ∧ make_request (constant_network (inl read_timeout)) test_client
             (create_message "Hello" None) 300 ∅ []
           = (tr, inl read_timeout))
  ∧ (∃ tr e, exn_cls e = HTTPError
             ∧ make_request_raw
                 (constant_network (inr (html_response 404 "Not Found")))
                 test_client (create_message "Hello" None) 300 ∅ []
               = (tr, inl e)
             ∧ make_request
                 (constant_network (inr (html_response 404 "Not Found")))
                 test_client (create_message "Hello" None) 300 ∅ []
               = (tr, inl e))
  ∧ (make_request_raw (constant_network (inr (json_response 200 "OK")))
       test_client (create_message "Hello" None) 300 ∅ []
     = ([POST "http://test-host:9999/v1/chat/completions"
           (request_data test_client (create_message "Hello" None) 300 ∅)],
        inr "{}")
     ∧ ∀ v, json_outcome (json_response 200 "OK") = inr v →
         make_request (constant_network (inr (json_response 200 "OK")))
           test_client (create_message "Hello" None) 300 ∅ []
         = ([POST "http://test-host:9999/v1/chat/completions"
               (request_data test_client (create_message "Hello" None)
                  300 ∅)],
            inr v))
  ∧ (make_request_raw (constant_network (inr (html_response 200 "OK")))
       test_client (create_message "Hello" None) 300 ∅ []
     = ([POST "http://test-host:9999/v1/chat/completions"
           (request_data test_client (create_message "Hello" None) 300 ∅)],
        inr "<html></html>")
     ∧ make_request (constant_network (inr (html_response 200 "OK")))
         test_client (create_message "Hello" None) 300 ∅ []
       = ([POST "http://test-host:9999/v1/chat/completions"
             (request_data test_client (create_message "Hello" None) 300 ∅);
           STDERR (error_line "http://test-host:9999/v1/chat/completions"
                     (Exn JSONDecodeError
                        "Expecting value: line 1 column 1 (char 0)"))],
          inl (Exn JSONDecodeError
                 "Expecting value: line 1 column 1 (char 0)"))).
Proof.
  split; [|split; [|split]].
  - apply (proj1 (proj2
             (make_request_raw_agrees
                (constant_network (inl read_timeout)) test_client
                (create_message "Hello" None) 300 ∅ [])) read_timeout).
    reflexivity.
  - apply (proj1 (proj2 (proj2
             (make_request_raw_agrees
                (constant_network (inr (html_response 404 "Not Found")))
                test_client (create_message "Hello" None) 300 ∅ [])))
             (html_response 404 "Not Found")); [reflexivity | simpl; lia].
  - apply (proj1 (proj2 (proj2 (proj2 (proj2
             (make_request_raw_agrees
                (constant_network (inr (json_response 200 "OK"))) test_client
                (create_message "Hello" None) 300 ∅ [])))))
             (json_response 200 "OK")); [reflexivity | simpl; lia].
  - apply (proj2 (proj2 (proj2 (proj2 (proj2
             (make_request_raw_agrees
                (constant_network (inr (html_response 200 "OK"))) test_client
                (create_message "Hello" None) 300 ∅ [])))))
             (html_response 200 "OK")
             "Expecting value: line 1 column 1 (char 0)");
      [reflexivity | simpl; lia | reflexivity].
Defined.

(** C7 as stated fails on the code.  On a response with status 200 whose
    body is not JSON, [make_request_raw] returns the text and prints
    nothing, while [make_request], given the same arguments, prints the
    error line and raises the decoding error: the two do not raise under
    the same conditions, and differ in more than the value returned. *)
Lemma make_request_raw_agrees_counterexample :
  make_request_raw (constant_network (inr (html_response 200 "OK")))
    test_client (create_message "Hello" None) 300 ∅ []
  = ([POST "http://test-host:9999/v1/chat/completions"
        (request_data test_client (create_message "Hello" None) 300 ∅)],
     inr "<html></html>")
  ∧ make_request (constant_network (inr (html_response 200 "OK")))
      test_client (create_message "Hello" None) 300 ∅ []
    = ([POST "http://test-host:9999/v1/chat/completions"
          (request_data test_client (create_message "Hello" None) 300 ∅);
        STDERR "Error making request to http://test-host:9999/v1/chat/completions: Expecting value: line 1 column 1 (char 0)"],
       inl (Exn JSONDecodeError "Expecting value: line 1 column 1 (char 0)"))
  ∧ ¬ (∃ e tr, make_request_raw
                 (constant_network (inr (html_response 200 "OK")))
                 test_client (create_message "Hello" None) 300 ∅ []
               = (tr, inl e)).
Proof.
  split; [reflexivity|]. split; [reflexivity|].
  intros (e & tr & Hraw). discriminate Hraw.
Qed.

(** Where the two differ beyond the type of the result: a body that is not
    JSON is returned as text by [make_request_raw], while decoding it in
    [make_request] raises the decoding error of the library. *)
Example make_request_raw_html_body :
  (make_request_raw (constant_network (inr (html_response 200 "OK")))
     test_client VNone 300 ∅ []).2
  = inr "<html></html>"
  ∧ (make_request (constant_network (inr (html_response 200 "OK")))
       test_client VNone 300 ∅ []).2
    = inl (Exn JSONDecodeError "Expecting value: line 1 column 1 (char 0)").
Proof. split; reflexivity. Qed.

(** * Further properties *)

(** ** Strings and numerals *)

Section Strings.

Implicit Types (s a b c : string).

Lemma string_length_app a b :
  String.length (a +:+ b) = (String.length a + String.length b)%nat.
Proof. induction a as [|x a IH]; simpl; [done|]. by rewrite IH. Qed.

(** A common suffix cancels. *)
Lemma string_app_inj_r c a b : a +:+ c = b +:+ c → a = b.
Proof.
  revert b. induction a as [|x a IH]; intros [|y b] Heq.
  - done.
  - apply (f_equal String.length) in Heq.
    rewrite (string_length_app "" c), (string_length_app (String y b) c)
      in Heq. simpl in Heq. exfalso. lia.
  - apply (f_equal String.length) in Heq.
    rewrite (string_length_app "" c), (string_length_app (String x a) c)
      in Heq. simpl in Heq. exfalso. lia.
  - injection Heq as -> Heq. f_equal. by apply IH.
Qed.

Lemma to_int_not_nil (n : Z) :
  Z.to_int n ≠ Decimal.Pos Decimal.Nil ∧ Z.to_int n ≠ Decimal.Neg Decimal.Nil.
Proof.
  destruct n as [|p|p]; simpl; split; try discriminate;
    intros [= Hp]; by apply (DecimalPos.Unsigned.to_uint_nonnil p).
Qed.

(** Reading back the numeral that [str] writes gives the number. *)
Lemma int_of_str_int (n : Z) :
  NilZero.int_of_string (str_int n) = Some (Z.to_int n).
Proof.
  destruct (to_int_not_nil n) as [Hpos Hneg]. by apply NilZero.isi.
Qed.

(** Different integers have different numerals. *)
Lemma str_int_inj (n m : Z) : str_int n = str_int m → n = m.
Proof.
  intros Heq. apply DecimalZ.to_int_inj.
  pose proof (int_of_str_int n) as Hn. rewrite Heq, int_of_str_int in Hn.
  congruence.
Qed.

(** [prefix] and [contains] against concatenation. *)
Lemma prefix_app s a : String.prefix s a = true ↔ ∃ post, a = s +:+ post.
Proof.
  revert a. induction s as [|x s IH]; intros a.
  - destruct a; split; eauto.
  - destruct a as [|y a]; simpl.
    + split; [done|]. intros [post Hpost]. discriminate Hpost.
    + destruct (Ascii.ascii_dec x y) as [->|Hne].
      * rewrite IH. split; intros [post Hpost]; exists post.
        -- by rewrite Hpost.
        -- change (String y a = String y (s +:+ post)) in Hpost. congruence.
      * split; [done|]. intros [post Hpost].
        change (String y a = String x (s +:+ post)) in Hpost. congruence.
Qed.

End Strings.

(** ** More on message construction *)

Section MessageMore.

Implicit Types (text : string) (urls : list string).

Lemma create_message_normal text (image_urls : option (list string)) :
  create_message text image_urls
  = create_message text (Some (default [] image_urls)).
Proof. by destruct image_urls as [[|u urls]|]. Qed.

Lemma create_message_nil text :
  create_message text (Some []) = VList [user_message (VStr text)].
Proof. reflexivity. Qed.

Lemma user_content_inj (A B : list value) :
  VList [user_message (VList A)] = VList [user_message (VList B)] → A = B.
Proof. by intros [= ->]. Qed.

(** X1: the message determines the text and the URLs it was built from:
    two calls that return the same message were given the same text and the
    same sequence of URLs ([None] and the empty list counting as the same
    sequence). *)
Theorem create_message_inj text text'
    (image_urls image_urls' : option (list string)) :
  create_message text image_urls = create_message text' image_urls' →
  text = text' ∧ default [] image_urls = default [] image_urls'.
Proof.
  rewrite (create_message_normal text image_urls),
    (create_message_normal text' image_urls').
  destruct (default [] image_urls) as [|u urls],
    (default [] image_urls') as [|u' urls'].
  - rewrite !create_message_nil. by intros [= ->].
  - rewrite create_message_nil, create_message_images_closed_form by done.
    intros Heq. by injection Heq.
  - rewrite create_message_nil, create_message_images_closed_form by done.
    intros Heq. by injection Heq.
  - rewrite !create_message_images_closed_form by done.
    intros Hcontent. apply user_content_inj in Hcontent.
    apply app_inj_tail in Hcontent as [Hblocks [= ->]].
    split; [done|].
    eapply (list_fmap_eq_inj (fun url => image_block (VStr url)));
      [|exact Hblocks].
    by intros a b [= ->].
Qed.

Lemma create_message_inj_witness :
  "Describe" = "Describe"
  ∧ default [] (Some ["https://a/1.jpg"]) = default [] (Some ["https://a/1.jpg"]).
Proof.
  apply (create_message_inj "Describe" "Describe"
           (Some ["https://a/1.jpg"]) (Some ["https://a/1.jpg"])).
  reflexivity.
Defined.

(** X2: the default text tells the image count, except that 0 and 1 share
    one text: two counts with the same default text are equal or are both
    among 0 and 1. *)
Theorem determine_default_text_inj (n m : Z) :
  determine_default_text n = determine_default_text m →
  n = m ∨ ((n = 0 ∨ n = 1) ∧ (m = 0 ∨ m = 1)).
Proof.
  unfold determine_default_text.
  destruct (Z.eqb_spec n 0), (Z.eqb_spec n 1), (Z.eqb_spec m 0),
    (Z.eqb_spec m 1); try lia; intros Heq; try discriminate Heq.
  left. apply String.app_inj in Heq.
  by apply string_app_inj_r, str_int_inj in Heq.
Qed.

Lemma determine_default_text_inj_witness :
  5 = 5 ∨ ((5 = 0 ∨ 5 = 1) ∧ (5 = 0 ∨ 5 = 1)).
Proof. apply (determine_default_text_inj 5 5). reflexivity. Defined.

End MessageMore.

(** ** More on the heap embedding *)

Section MessageHeapMore.

Implicit Types (text : string) (h : heap) (l c : loc) (xs : list value).

(** X3: [create_message] modifies no list that exists when it is called,
    not only its argument.  Called without image URLs, or with a reference
    to a list holding any items, the call returns, every list of the heap
    holds the same items afterwards, and the value returned has one image
    block per item, in order, followed by the text block (the bare text
    when there is no item). *)
Theorem create_message_heap_keeps_every_list text h :
  (∃ h', create_message_heap text None h
         = Some (h', VList [user_message (VStr text)])
         ∧ ∀ l' ys, h !! l' = Some ys → h' !! l' = Some ys)
  ∧ (∀ l xs, h !! l = Some xs →
       ∃ h', create_message_heap text (Some l) h
             = Some (h',
                     if bool_decide (xs = [])
                     then VList [user_message (VStr text)]
                     else VList [user_message
                                   (VList ((image_block <$> xs)
                                           ++ [text_block text]))])
             ∧ ∀ l' ys, h !! l' = Some ys → h' !! l' = Some ys).
Proof.
  assert (Hkeep : ∀ items l' ys, h !! l' = Some ys →
            (<[fresh (dom h) := items]> h : heap) !! l' = Some ys).
  { intros items l' ys Hl'. rewrite lookup_insert_ne; [done|].
    intros Heq. by apply (alloc_list_fresh h l' ys Hl'). }
  split.
  - eexists. split; [by apply create_message_heap_none|]. apply Hkeep.
  - intros l xs Hl. eexists.
    split; [by apply create_message_heap_run|]. apply Hkeep.
Qed.

Lemma create_message_heap_keeps_every_list_witness :
  ∃ h', create_message_heap "Describe" (Some 3%nat)
          {[ 3%nat := [VStr "u"; VInt 7]; 4%nat := [VInt 1] ]}
        = Some (h',
                if bool_decide ([VStr "u"; VInt 7] = [])
                then VList [user_message (VStr "Describe")]
                else VList [user_message
                              (VList ((image_block <$> [VStr "u"; VInt 7])
                                      ++ [text_block "Describe"]))])
        ∧ ∀ l' ys,
            ({[ 3%nat := [VStr "u"; VInt 7]; 4%nat := [VInt 1] ]} : heap)
              !! l' = Some ys →
            h' !! l' = Some ys.
Proof.
  apply (proj2 (create_message_heap_keeps_every_list "Describe"
                  {[ 3%nat := [VStr "u"; VInt 7]; 4%nat := [VInt 1] ]})
           3%nat [VStr "u"; VInt 7]).
  reflexivity.
Defined.

End MessageHeapMore.

(** ** More on the CLI policy *)

Section CliMore.

Implicit Types (text : string) (urls : list string)
  (groups : list (list string)).

(** X4: the flattened URL list is [None] exactly when no [--image-url]
    occurrence was collected; otherwise it is the concatenation of the
    groups in order, whose length is the sum of the lengths of the groups
    (and which is empty when every group is). *)
Theorem flatten_image_urls_spec (image_url : option (list (list string))) :
  (flatten_image_urls image_url = None
   ↔ image_url = None ∨ image_url = Some [])
  ∧ (∀ groups, image_url = Some groups → groups ≠ [] →
       flatten_image_urls image_url = Some (concat groups)
       ∧ length (concat groups) = sum_list (length <$> groups)).
Proof.
  split.
  - destruct image_url as [[|g groups]|]; simpl; split; try done;
      try (by left); try (by right); by intros [?|?].
  - intros groups -> Hne. split; [by apply flatten_image_urls_concat|].
    clear Hne. induction groups as [|g groups IH]; simpl; [done|].
    by rewrite length_app, IH.
Qed.

Lemma flatten_image_urls_spec_witness :
  flatten_image_urls (Some [["a"; "b"]; []; ["c"]]) = Some ["a"; "b"; "c"]
  ∧ length (concat [["a"; "b"]; []; ["c"]])
    = sum_list (length <$> [["a"; "b"]; []; ["c"]]).
Proof.
  apply (proj2 (flatten_image_urls_spec (Some [["a"; "b"]; []; ["c"]]))
           [["a"; "b"]; []; ["c"]]); [reflexivity | discriminate].
Defined.

(** X5: without an explicit text the result always has at least one image,
    and its text is the default text for the number of images returned;
    this covers the fallback, whose single URL goes with the text for one
    image. *)
Theorem determine_text_and_images_without_text
    (image_urls_arg : option (list string)) text
    (image_urls : option (list string)) :
  determine_text_and_images None image_urls_arg = (text, image_urls) →
  ∃ urls, image_urls = Some urls
          ∧ urls ≠ []
          ∧ text = determine_default_text (Z.of_nat (length urls))
          ∧ text ≠ "".
Proof.
  unfold determine_text_and_images.
  assert (Hnonempty : ∀ n, determine_default_text n ≠ "").
  { intros n. unfold determine_default_text.
    by destruct (n =? 0), (n =? 1). }
  destruct image_urls_arg as [[|u urls]|]; simpl; intros [= <- <-].
  - exists [FALLBACK_IMAGE_URL]. by repeat split.
  - exists (u :: urls). repeat split; [done|apply Hnonempty].
  - exists [FALLBACK_IMAGE_URL]. by repeat split.
Qed.

Lemma determine_text_and_images_without_text_witness :
  ∃ urls, Some [FALLBACK_IMAGE_URL] = Some urls
          ∧ urls ≠ []
          ∧ determine_default_text 1
            = determine_default_text (Z.of_nat (length urls))
          ∧ determine_default_text 1 ≠ "".
Proof.
  apply (determine_text_and_images_without_text (Some [])
           (determine_default_text 1) (Some [FALLBACK_IMAGE_URL])).
  reflexivity.
Defined.

(** The messages that [main] builds from [--text] and [--image-url]. *)
Lemma cli_messages_cases (text_arg : option string)
    (image_url : option (list (list string))) :
  let urls := concat (default [] image_url) in
  (let '(text_message, image_urls) :=
     determine_text_and_images text_arg (flatten_image_urls image_url) in
   create_message text_message image_urls)
  = match text_arg with
    | Some text => create_message text (Some urls)
    | None =>
        if bool_decide (urls = [])
        then create_message (determine_default_text 1)
               (Some [FALLBACK_IMAGE_URL])
        else create_message
               (determine_default_text (Z.of_nat (length urls))) (Some urls)
    end.
Proof.
  intros urls. subst urls.
  destruct image_url as [[|g groups]|]; simpl.
  - by destruct text_arg.
  - rewrite (flatten_image_urls_concat (g :: groups)) by done. simpl.
    destruct text_arg as [text|]; simpl; [done|].
    destruct (g ++ concat groups) as [|u urls] eqn:Hurls; simpl.
    + done.
    + done.
  - by destruct text_arg.
Qed.

(** X6: how the three steps of the CLI compose.  With a text, the message
    carries that text and the flattened URLs, and is the text-only message
    when no URL was collected, also when [--image-url] was passed without
    values.  Without a text, it carries the default text for the number of
    flattened URLs, or, when there is none, the fallback image with the
    text for one image. *)
Theorem cli_messages_policy (text_arg : option string)
    (image_url : option (list (list string))) :
  let urls := concat (default [] image_url) in
  let messages :=
    (let '(text_message, image_urls) :=
       determine_text_and_images text_arg (flatten_image_urls image_url) in
     create_message text_message image_urls) in
  (∀ text, text_arg = Some text → urls = [] →
     messages = VList [user_message (VStr text)])
  ∧ (∀ text, text_arg = Some text → urls ≠ [] →
       messages
       = VList [user_message
                  (VList (((fun url => image_block (VStr url)) <$> urls)
                          ++ [text_block text]))])
  ∧ (text_arg = None → urls ≠ [] →
       messages
       = VList [user_message
                  (VList (((fun url => image_block (VStr url)) <$> urls)
                          ++ [text_block
                                (determine_default_text
                                   (Z.of_nat (length urls)))]))])
  ∧ (text_arg = None → urls = [] →
       messages
       = VList [user_message
                  (VList [image_block (VStr FALLBACK_IMAGE_URL);
                          text_block "What's in this image?"])]).
Proof.
  intros urls messages. subst messages.
  rewrite (cli_messages_cases text_arg image_url). fold urls.
  split; [|split; [|split]].
  - by intros text -> ->.
  - intros text -> Hne. by apply create_message_images_closed_form.
  - intros -> Hne. rewrite bool_decide_false by done.
    by apply create_message_images_closed_form.
  - intros -> Hnil. by rewrite bool_decide_true.
Qed.

Lemma cli_messages_policy_witness :
  (let '(text_message, image_urls) :=
     determine_text_and_images (Some "Hi") (flatten_image_urls (Some [[]])) in
   create_message text_message image_urls)
  = VList [user_message (VStr "Hi")]
  ∧ (let '(text_message, image_urls) :=
       determine_text_and_images None (flatten_image_urls (Some [[]])) in
     create_message text_message image_urls)
    = VList [user_message
               (VList [image_block (VStr FALLBACK_IMAGE_URL);
                       text_block "What's in this image?"])].
Proof.
  split.
  - apply (proj1 (cli_messages_policy (Some "Hi") (Some [[]])) "Hi");
      reflexivity.
  - apply (proj2 (proj2 (proj2 (cli_messages_policy None (Some [[]])))));
      reflexivity.
Defined.

End CliMore.

(** ** More on the client *)

(** X7: an exception of the POST or of the GET that is not an exception of
    the [requests] library is not handled: both request operations and the
    liveness probe let it through to the caller, and nothing is printed. *)
Theorem foreign_exception_propagates (net : Network)
    (self : SGLangMistralClient) (messages : value) (max_tokens : Z)
    (kwargs : gmap string value) (t : list event) (e : exn) :
  let url := base_url self +:+ "/v1/chat/completions" in
  let data := request_data self messages max_tokens kwargs in
  is_RequestException e = false →
  (http_post net url data = inl e →
     make_request net self messages max_tokens kwargs t
     = (t ++ [POST url data], inl e)
     ∧ make_request_raw net self messages max_tokens kwargs t
       = (t ++ [POST url data], inl e))
  ∧ (http_get net (base_url self +:+ "/health") 5 = inl e →
       health_check net self t
       = (t ++ [GET (base_url self +:+ "/health") 5], inl e)).
Proof.
  intros url data He. split.
  - intros Hpost.
    rewrite (make_request_run net self messages max_tokens kwargs t),
      (make_request_raw_run net self messages max_tokens kwargs t).
    fold url data. by rewrite Hpost, He.
  - intros Hget. rewrite (health_check_run net self t). by rewrite Hget, He.
Qed.

Lemma foreign_exception_propagates_witness :
  make_request (constant_network (inl interrupted)) test_client VNone 300 ∅ []
  = ([POST "http://test-host:9999/v1/chat/completions"
        (request_data test_client VNone 300 ∅)], inl interrupted)
  ∧ make_request_raw (constant_network (inl interrupted)) test_client
      VNone 300 ∅ []
    = ([POST "http://test-host:9999/v1/chat/completions"
          (request_data test_client VNone 300 ∅)], inl interrupted).
Proof.
  apply (proj1 (foreign_exception_propagates
                  (constant_network (inl interrupted)) test_client
                  VNone 300 ∅ [] interrupted eq_refl)).
  reflexivity.
Defined.

(** X8: the constructor raises exactly when it has to convert the port
    string and [int] raises, and then it raises that exception: passing a
    non-zero port avoids the conversion whatever [SGLANG_PORT] holds, while
    passing no port or port [0] does not. *)
Theorem init_raises_iff (py_int : string → exn + Z)
    (environ : gmap string string) (host_arg : option string)
    (port_arg : option Z) (model_arg : option string) (e : exn) :
  init py_int environ host_arg port_arg model_arg = inl e
  ↔ (port_arg = None ∨ port_arg = Some 0)
    ∧ py_int (getenv environ "SGLANG_PORT" "30000") = inl e.
Proof.
  rewrite <- truthy_int_false. unfold init, DEFAULT_PORT.
  destruct (truthy_int port_arg); simpl.
  - split; [done|]. by intros [? _].
  - destruct (py_int _) as [e'|n]; split; try done.
    + by intros [= ->].
    + by intros [_ [= ->]].
    + by intros [_ ?].
Qed.

Example init_port_explicit_despite_environment :
  init decimal_int {[ "SGLANG_PORT" := "http" ]} None (Some 8000) None
  = inr {| host := "localhost"; port := 8000; model := DEFAULT_MODEL;
           base_url := "http://localhost:8000" |}.
Proof. vm_compute. reflexivity. Qed.

(** The request operations and the probe add to the trace and do not look
    at it. *)
Lemma make_request_appends net self messages max_tokens kwargs t :
  make_request net self messages max_tokens kwargs t
  = (t ++ (make_request net self messages max_tokens kwargs []).1,
     (make_request net self messages max_tokens kwargs []).2).
Proof.
  rewrite !make_request_run.
  destruct (http_post _ _ _) as [e|r];
    [destruct (is_RequestException e)
    |destruct (http_error_msg r); [|destruct (json_outcome r)]]; done.
Qed.

Lemma make_request_raw_appends net self messages max_tokens kwargs t :
  make_request_raw net self messages max_tokens kwargs t
  = (t ++ (make_request_raw net self messages max_tokens kwargs []).1,
     (make_request_raw net self messages max_tokens kwargs []).2).
Proof.
  rewrite !make_request_raw_run.
  destruct (http_post _ _ _) as [e|r];
    [destruct (is_RequestException e) | destruct (http_error_msg r)]; done.
Qed.

Lemma init_raises_iff_witness :
  init decimal_int {[ "SGLANG_PORT" := "http" ]} (Some "h") (Some 0) None
  = inl (Exn ValueError "invalid literal for int() with base 10: 'http'").
Proof.
  apply (proj2 (init_raises_iff decimal_int {[ "SGLANG_PORT" := "http" ]}
                  (Some "h") (Some 0) None
                  (Exn ValueError
                     "invalid literal for int() with base 10: 'http'"))).
  split; [by right | vm_compute; reflexivity].
Defined.

(** ** The entry point of the CLI *)

Section MainProperties.
Import CliMain.

Variable py_int : string → exn + Z.
Variable py_str : value → string.
Variable json_dumps : value → Z → string.
Variable environ : gmap string string.
Variable net : Network.

Implicit Types (args : Namespace) (out : list output)
  (c : SGLangMistralClient) (e : exn) (r : Response).

(** The messages built from the arguments. *)
Local Abbreviation messages_of args :=
  (let '(text_message, image_urls) :=
     determine_text_and_images (args_text args)
       (flatten_image_urls (args_image_url args)) in
   create_message text_message image_urls).

(** The body of the request that [main] sends: no extra parameters. *)
Local Abbreviation data_of c args :=
  (request_data c (messages_of args) (args_max_tokens args) ∅).

Local Abbreviation url_of c := (base_url c +:+ "/v1/chat/completions").

(** [main] when the constructor raises. *)
Lemma main_run_init_error args out e :
  init py_int environ (args_host args) (args_port args) (args_model args)
  = inl e →
  main py_int py_str json_dumps environ net args out = main_except e out.
Proof. intros Hinit. unfold main, main_try. by rewrite Hinit. Qed.

(** [main] once the client is constructed, outcome by outcome of the
    POST. *)
Lemma main_run args out c :
  init py_int environ (args_host args) (args_port args) (args_model args)
  = inr c →
  main py_int py_str json_dumps environ net args out
  = let sent := out ++ [Ev (POST (url_of c) (data_of c args))] in
    let logged e := sent ++ [Ev (STDERR (error_line (url_of c) e))] in
    match http_post net (url_of c) (data_of c args) with
    | inl e =>
        main_except e (if is_RequestException e then logged e else sent)
    | inr r =>
        match http_error_msg r with
        | Some msg =>
            main_except (Exn HTTPError msg) (logged (Exn HTTPError msg))
        | None =>
            if args_raw args then (sent ++ [STDOUT (text r)], inr 0)
            else
              match json_outcome r with
              | inr v =>
                  (sent ++ [STDOUT (if args_json args then json_dumps v 2
                                    else py_str v)], inr 0)
              | inl msg =>
                  main_except (Exn JSONDecodeError msg)
                    (logged (Exn JSONDecodeError msg))
              end
        end
    end.
Proof.
  intros Hinit. unfold main, main_try. rewrite Hinit.
  destruct (determine_text_and_images _ _) as [text_message image_urls].
  unfold run_client, print_stdout.
  destruct (args_raw args).
  - rewrite make_request_raw_run.
    destruct (http_post _ _ _) as [e|r];
      [destruct (is_RequestException e) | destruct (http_error_msg r)];
      simpl; by rewrite <- ?app_assoc.
  - rewrite make_request_run.
    destruct (http_post _ _ _) as [e|r];
      [destruct (is_RequestException e)
      |destruct (http_error_msg r); [|destruct (json_outcome r)]];
      simpl; try destruct (args_json args); by rewrite <- ?app_assoc.
Qed.

Lemma request_exception_is_exception e :
  is_RequestException e = true →
  is_KeyboardInterrupt e = false ∧ is_Exception e = true.
Proof.
  unfold is_RequestException, is_KeyboardInterrupt, is_Exception.
  by destruct (exn_cls e).
Qed.

Lemma not_interrupt_is_exception e :
  is_KeyboardInterrupt e = false → is_Exception e = true.
Proof.
  unfold is_KeyboardInterrupt, is_Exception. by destruct (exn_cls e).
Qed.

(** What the [except] clauses do with an exception. *)
Lemma main_except_run e out :
  main_except e out
  = if is_KeyboardInterrupt e
    then (out ++ [Ev (STDERR INTERRUPTED)], inr 130)
    else (out ++ [Ev (STDERR ("Error: " +:+ exn_msg e))], inr 1).
Proof.
  unfold main_except, print_error.
  destruct (is_KeyboardInterrupt e) eqn:Hki; [done|].
  by rewrite (not_interrupt_is_exception e Hki).
Qed.

(** X9: a failed request is reported twice and ends the process with exit
    code 1.  When the POST raises an exception of the [requests] library,
    or the response has a status from 400 to 599, standard error receives
    the line of the client and then the line ["Error: ..."] of [main] with
    the same message; nothing is printed on standard output. *)
Theorem main_reports_failed_request args out c :
  init py_int environ (args_host args) (args_port args) (args_model args)
  = inr c →
  (∀ e, http_post net (url_of c) (data_of c args) = inl e →
     is_RequestException e = true →
     main py_int py_str json_dumps environ net args out
     = (out ++ [Ev (POST (url_of c) (data_of c args));
                Ev (STDERR (error_line (url_of c) e));
                Ev (STDERR ("Error: " +:+ exn_msg e))],
        inr 1))
  ∧ (∀ r, http_post net (url_of c) (data_of c args) = inr r →
       400 ≤ status_code r < 600 →
       ∃ e, exn_cls e = HTTPError
            ∧ main py_int py_str json_dumps environ net args out
              = (out ++ [Ev (POST (url_of c) (data_of c args));
                         Ev (STDERR (error_line (url_of c) e));
                         Ev (STDERR ("Error: " +:+ exn_msg e))],
                 inr 1)).
Proof.
  intros Hinit. rewrite (main_run args out c Hinit). cbv zeta. split.
  - intros e -> He. rewrite He, main_except_run.
    destruct (request_exception_is_exception e He) as [-> _].
    by rewrite <- !app_assoc.
  - intros r -> Hs. apply http_error_msg_Some in Hs as [msg ->].
    exists (Exn HTTPError msg). split; [done|].
    rewrite main_except_run. simpl. by rewrite <- !app_assoc.
Qed.

(** X10: when the constructor or the POST raises [KeyboardInterrupt],
    [main] prints a line feed and ["Interrupted by user"] on standard error
    and returns exit code 130; the client prints no error line for it and
    nothing is printed on standard output. *)
Theorem main_interrupted args out e :
  is_KeyboardInterrupt e = true →
  (init py_int environ (args_host args) (args_port args) (args_model args)
   = inl e →
   main py_int py_str json_dumps environ net args out
   = (out ++ [Ev (STDERR (String (Ascii.ascii_of_nat 10)
                            "Interrupted by user"))],
      inr 130))
  ∧ (∀ c, init py_int environ (args_host args) (args_port args)
            (args_model args) = inr c →
          http_post net (url_of c) (data_of c args) = inl e →
          main py_int py_str json_dumps environ net args out
          = (out ++ [Ev (POST (url_of c) (data_of c args));
                     Ev (STDERR (String (Ascii.ascii_of_nat 10)
                                   "Interrupted by user"))],
             inr 130)).
Proof.
  intros He.
  assert (Hnot : is_RequestException e = false).
  { unfold is_KeyboardInterrupt, is_RequestException in *.
    by destruct (exn_cls e). }
  split.
  - intros Hinit. rewrite (main_run_init_error args out e Hinit).
    by rewrite main_except_run, He.
  - intros c Hinit Hpost. rewrite (main_run args out c Hinit). cbv zeta.
    rewrite Hpost, Hnot, main_except_run, He. by rewrite <- app_assoc.
Qed.

(** X11: after a response whose status is not from 400 to 599.  With
    [--raw], [main] prints the body text on standard output and returns 0,
    whether or not [--json] is given.  Without [--raw], when the body
    decodes as JSON it prints the decoded body, rendered by [json.dumps]
    with indent 2 under [--json] and by [str] without it, and returns 0;
    when the body does not decode, it prints nothing on standard output,
    reports the decoding error twice on standard error and returns 1. *)
Theorem main_success_output args out c r :
  init py_int environ (args_host args) (args_port args) (args_model args)
  = inr c →
  http_post net (url_of c) (data_of c args) = inr r →
  ¬ (400 ≤ status_code r < 600) →
  (args_raw args = true →
     main py_int py_str json_dumps environ net args out
     = (out ++ [Ev (POST (url_of c) (data_of c args)); STDOUT (text r)],
        inr 0))
  ∧ (∀ v, args_raw args = false → json_outcome r = inr v →
       main py_int py_str json_dumps environ net args out
       = (out ++ [Ev (POST (url_of c) (data_of c args));
                  STDOUT (if args_json args then json_dumps v 2
                          else py_str v)],
          inr 0))
  ∧ (∀ msg, args_raw args = false → json_outcome r = inl msg →
       main py_int py_str json_dumps environ net args out
       = (out ++ [Ev (POST (url_of c) (data_of c args));
                  Ev (STDERR (error_line (url_of c)
                                (Exn JSONDecodeError msg)));
                  Ev (STDERR ("Error: " +:+ msg))],
          inr 1)).
Proof.
  intros Hinit Hpost Hs. apply http_error_msg_None in Hs.
  rewrite (main_run args out c Hinit). cbv zeta. rewrite Hpost, Hs.
  split; [|split].
  - intros ->. by rewrite <- !app_assoc.
  - intros v -> ->. by rewrite <- !app_assoc.
  - intros msg -> ->. rewrite main_except_run. simpl.
    by rewrite <- !app_assoc.
Qed.

(** X12: when no non-zero [--port] is given and the port string of the
    environment does not convert, [main] sends no request: it prints the
    error of the conversion on standard error and returns exit code 1. *)
Theorem main_port_not_convertible args out e :
  args_port args = None ∨ args_port args = Some 0 →
  py_int (getenv environ "SGLANG_PORT" "30000") = inl e →
  is_Exception e = true →
  main py_int py_str json_dumps environ net args out = (out ++ [Ev (STDERR ("Error: " +:+ exn_msg e))], inr 1).
Proof.
  intros Hport Hint He.
  rewrite (main_run_init_error args out e)
    by (by apply (init_returns py_int environ)).
  rewrite main_except_run.
  unfold is_KeyboardInterrupt, is_Exception in *.
  by destruct (exn_cls e).
Qed.

(** X14: once the client is constructed, the first thing [main] does to
    the outside is one POST to [http://{host}:{port}/v1/chat/completions]
    whose body has exactly three entries: the model of the client, the
    messages built from the arguments, and [--max-tokens]. *)
Theorem main_request args out c :
  init py_int environ (args_host args) (args_port args) (args_model args)
  = inr c →
  ∃ rest,
    (main py_int py_str json_dumps environ net args out).1
    = out ++ Ev (POST (("http://" +:+ host c +:+ ":" +:+ str_int (port c))
                       +:+ "/v1/chat/completions")
                   {[ "model" := VStr (model c);
                      "messages" := messages_of args;
                      "max_tokens" := VInt (args_max_tokens args) ]})
             :: rest.
Proof.
  intros Hinit.
  destruct (init_fields _ _ _ _ _ _ Hinit) as (_ & _ & _ & Hurl).
  rewrite <- Hurl.
  assert (Hdata : data_of c args
                  = {[ "model" := VStr (model c);
                       "messages" := messages_of args;
                       "max_tokens" := VInt (args_max_tokens args) ]}).
  { unfold request_data. by rewrite (left_id_L ∅ (∪)). }
  rewrite <- Hdata.
  rewrite (main_run args out c Hinit). cbv zeta.
  set (url := url_of c). set (data := data_of c args).
  assert (Hexcept : ∀ e o, ∃ line,
             (main_except e o).1 = o ++ [Ev (STDERR line)]).
  { intros e o. rewrite main_except_run.
    destruct (is_KeyboardInterrupt e); by eexists. }
  destruct (http_post net url data) as [e|r];
    [destruct (is_RequestException e)
    |destruct (http_error_msg r) as [msg|];
       [|destruct (args_raw args); [|destruct (json_outcome r) as [msg|v]]]];
    try (match goal with
         | |- context [main_except ?e ?o] =>
             destruct (Hexcept e o) as [line ->]
         end);
    simpl; rewrite <- ?app_assoc; by eexists.
Qed.

End MainProperties.

Section MainScenarios.
Import CliMain Scenarios.

Lemma main_reports_failed_request_witness :
  main decimal_int str_marker dumps_marker ∅
    (constant_network (inl connection_refused)) hello_args []
  = ([Ev (POST "http://localhost:30000/v1/chat/completions"
            (request_data default_client (create_message "Hello" None) 300 ∅));
      Ev (STDERR "Error making request to http://localhost:30000/v1/chat/completions: Connection failed");
      Ev (STDERR "Error: Connection failed")],
     inr 1).
Proof.
  refine (proj1 (main_reports_failed_request decimal_int str_marker
                   dumps_marker ∅ (constant_network (inl connection_refused))
                   hello_args [] default_client _)
            connection_refused _ _); reflexivity.
Defined.

Lemma main_interrupted_witness :
  main decimal_int str_marker dumps_marker ∅
    (constant_network (inl interrupted)) hello_args []
  = ([Ev (POST "http://localhost:30000/v1/chat/completions"
            (request_data default_client (create_message "Hello" None) 300 ∅));
      Ev (STDERR (String (Ascii.ascii_of_nat 10) "Interrupted by user"))],
     inr 130).
Proof.
  refine (proj2 (main_interrupted decimal_int str_marker dumps_marker ∅
                   (constant_network (inl interrupted)) hello_args []
                   interrupted _) default_client _ _); reflexivity.
Defined.

Lemma main_success_output_witness :
  main decimal_int str_marker dumps_marker ∅
    (constant_network (inr (json_response 200 "OK"))) hello_raw_args []
  = ([Ev (POST "http://localhost:30000/v1/chat/completions"
            (request_data default_client (create_message "Hello" None) 300 ∅));
      STDOUT "{}"],
     inr 0)
  ∧ main decimal_int str_marker dumps_marker ∅
      (constant_network (inr (json_response 200 "OK"))) hello_args []
    = ([Ev (POST "http://localhost:30000/v1/chat/completions"
              (request_data default_client (create_message "Hello" None)
                 300 ∅));
        STDOUT "str(response)"],
       inr 0)
  ∧ main decimal_int str_marker dumps_marker ∅
      (constant_network (inr (html_response 200 "OK"))) hello_args []
    = ([Ev (POST "http://localhost:30000/v1/chat/completions"
              (request_data default_client (create_message "Hello" None)
                 300 ∅));
        Ev (STDERR "Error making request to http://localhost:30000/v1/chat/completions: Expecting value: line 1 column 1 (char 0)");
        Ev (STDERR "Error: Expecting value: line 1 column 1 (char 0)")],
       inr 1).
Proof.
  split; [|split].
  - refine (proj1 (main_success_output decimal_int str_marker dumps_marker ∅
                     (constant_network (inr (json_response 200 "OK")))
                     hello_raw_args [] default_client (json_response 200 "OK")
                     _ _ _) _); try reflexivity.
    simpl. lia.
  - refine (proj1 (proj2
                     (main_success_output decimal_int str_marker dumps_marker
                        ∅ (constant_network (inr (json_response 200 "OK")))
                        hello_args [] default_client (json_response 200 "OK")
                        _ _ _)) (VDict []) _ _); try reflexivity.
    simpl. lia.
  - refine (proj2 (proj2
                     (main_success_output decimal_int str_marker dumps_marker
                        ∅ (constant_network (inr (html_response 200 "OK")))
                        hello_args [] default_client (html_response 200 "OK")
                        _ _ _))
              "Expecting value: line 1 column 1 (char 0)" _ _);
      try reflexivity.
    simpl. lia.
Defined.

Lemma main_port_not_convertible_witness :
  main decimal_int str_marker dumps_marker {[ "SGLANG_PORT" := "http" ]}
    (constant_network (inr (json_response 200 "OK"))) hello_args []
  = ([Ev (STDERR "Error: invalid literal for int() with base 10: 'http'")],
     inr 1).
Proof.
  apply (main_port_not_convertible decimal_int str_marker dumps_marker
           {[ "SGLANG_PORT" := "http" ]}
           (constant_network (inr (json_response 200 "OK"))) hello_args []
           (Exn ValueError "invalid literal for int() with base 10: 'http'")).
  - by left.
  - vm_compute. reflexivity.
  - reflexivity.
Defined.

Lemma main_request_witness :
  ∃ rest,
    (main decimal_int str_marker dumps_marker ∅
       (constant_network (inl read_timeout)) hello_args []).1
    = [] ++ Ev (POST (("http://" +:+ host default_client +:+ ":"
                       +:+ str_int (port default_client))
                      +:+ "/v1/chat/completions")
                  {[ "model" := VStr (model default_client);
                     "messages" :=
                       (let '(text_message, image_urls) :=
                          determine_text_and_images (args_text hello_args)
                            (flatten_image_urls (args_image_url hello_args)) in
                        create_message text_message image_urls);
                     "max_tokens" := VInt (args_max_tokens hello_args) ]})
            :: rest.
Proof.
  apply (main_request decimal_int str_marker dumps_marker ∅
           (constant_network (inl read_timeout)) hello_args []
           default_client).
  reflexivity.
Defined.

End MainScenarios.

(** ** The setup verification script *)

Section SetupCheckProperties.
Import CliMain SetupCheck.

Implicit Types (sys : System) (w : World) (content : string).

(** [contains] finds exactly the occurrences of the needle. *)
Lemma contains_app (needle haystack : string) :
  contains needle haystack = true
  ↔ ∃ pre post, haystack = pre +:+ needle +:+ post.
Proof.
  induction haystack as [|y h IH]; cbn [contains].
  - rewrite orb_false_r, prefix_app. split.
    + intros [post Hpost]. by exists "", post.
    + intros ([|x pre] & post & Hpost); [by exists post|].
      discriminate Hpost.
  - rewrite orb_true_iff, prefix_app, IH. split.
    + intros [[post Hpost]|(pre & post & Hpost)].
      * by exists "", post.
      * exists (String y pre), post. by rewrite Hpost.
    + intros ([|x pre] & post & Hpost).
      * left. by exists post.
      * right. exists pre, post.
        change (String y h = String x (pre +:+ needle +:+ post)) in Hpost.
        congruence.
Qed.

Ltac finish_run :=
  simpl; eexists; unfold print; simpl; rewrite <- ?app_assoc; reflexivity.

Lemma global_token_or_run found missing w :
  ∃ lines,
    global_token_or found missing w
    = ({| environ := environ w; stdout := stdout w ++ lines |},
       inr (token_configured (getenv (environ w) "HF_TOKEN" ""))).
Proof.
  unfold global_token_or.
  destruct (token_configured _); [by eexists|].
  exists missing. f_equal. revert w.
  induction missing as [|line missing IH]; intros w; simpl.
  - rewrite app_nil_r. by destruct w.
  - rewrite IH. unfold print. simpl. by rewrite <- app_assoc.
Qed.

Lemma check_env_file_run sys w :
  (∀ e, env_file sys = Some (inl e) → is_Exception e = true) →
  ∃ lines,
    check_env_file sys w
    = ({| environ := environ w;
          stdout := stdout w
                    ++ "🔍 Checking environment configuration..." :: lines |},
       inr (env_file_verdict sys (environ w))).
Proof.
  intros Hread. unfold check_env_file, env_file_verdict.
  destruct (env_example_exists sys); [|finish_run].
  cbn [negb andb].
  destruct (env_file sys) as [[e|content]|].
  - rewrite (Hread e eq_refl). finish_run.
  - destruct (contains "HF_TOKEN=your_huggingface_token_here" content).
    + destruct (global_token_or_run
                  "✅ .env has placeholder value, but HF_TOKEN is available globally"
                  ["⚠️  HF_TOKEN still has placeholder value.";
                   "   Please edit .env and set your actual HuggingFace token.";
                   "   Alternatively, set HF_TOKEN as a global environment variable."]
                  (print "🔍 Checking environment configuration..." w))
        as [lines ->].
      rewrite andb_false_r, orb_false_r. finish_run.
    + destruct (contains "HF_TOKEN=" content); cbn [negb andb].
      * rewrite orb_true_r. finish_run.
      * destruct (global_token_or_run
                    "✅ .env missing HF_TOKEN, but it's available globally"
                    ["⚠️  HF_TOKEN not found in .env file.";
                     "   Alternatively, set HF_TOKEN as a global environment variable."]
                    (print "🔍 Checking environment configuration..." w))
          as [lines ->].
        rewrite orb_false_r. finish_run.
  - destruct (global_token_or_run
                "✅ .env file not found, but HF_TOKEN is available globally"
                ["⚠️  .env file not found. Please run: cp .env.example .env";
                 "   Then edit .env with your actual HuggingFace token.";
                 "   Alternatively, set HF_TOKEN as a global environment variable."]
                (print "🔍 Checking environment configuration..." w))
      as [lines ->].
    finish_run.
Qed.

Lemma check_dependencies_run sys w :
  ∃ lines,
    check_dependencies sys w
    = ({| environ := environ w;
          stdout := stdout w
                    ++ (LF +:+ "🔍 Checking dependencies...") :: lines |},
       inr (requests_importable sys)).
Proof.
  unfold check_dependencies.
  destruct (requests_importable sys); [destruct (dotenv_importable sys)|];
    finish_run.
Qed.

Lemma check_script_run sys import_effect w :
  (∀ e, package_import_error sys = Some e → is_Exception e = true) →
  ∃ lines,
    check_script sys import_effect w
    = ({| environ := import_effect (environ w);
          stdout := stdout w
                    ++ (LF +:+ "🔍 Checking main script...") :: lines |},
       inr (bool_decide (package_import_error sys = None))).
Proof.
  intros Himport. unfold check_script.
  destruct (package_import_error sys) as [e|].
  - rewrite (Himport e eq_refl). finish_run.
  - destruct (cli_has_main sys), (client_has_class sys),
      (message_has_create_message sys); finish_run.
Qed.

Lemma check_environment_variables_run sys load_dotenv w :
  let environ' :=
    if dotenv_importable sys then load_dotenv (environ w) else environ w in
  ∃ lines,
    check_environment_variables sys load_dotenv w
    = ({| environ := environ';
          stdout := stdout w
                    ++ (LF +:+ "🔍 Checking environment variables...")
                       :: lines |},
       inr (token_configured (getenv environ' "HF_TOKEN" ""))).
Proof.
  unfold check_environment_variables.
  destruct (dotenv_importable sys); simpl;
    destruct (token_configured _); finish_run.
Qed.

Lemma token_configured_true (t : string) :
  token_configured t = true ↔ t ≠ "" ∧ t ≠ "your_huggingface_token_here".
Proof.
  unfold token_configured, PLACEHOLDER.
  destruct (String.eqb_spec t ""),
    (String.eqb_spec t "your_huggingface_token_here"); simpl;
    split; try done; by intros [? ?].
Qed.

(** The script, when no check lets an exception through. *)
Lemma setup_main_run sys load_dotenv import_effect w :
  (∀ e, env_file sys = Some (inl e) → is_Exception e = true) →
  (∀ e, package_import_error sys = Some e → is_Exception e = true) →
  let all_passed :=
    env_file_verdict sys (environ w)
    && requests_importable sys
    && bool_decide (package_import_error sys = None)
    && token_configured
         (getenv (loaded_environ sys load_dotenv import_effect (environ w)) "HF_TOKEN" "") in
  ∃ l1 l2 l3 l4,
    SetupCheck.main sys load_dotenv import_effect w
    = ({| environ := loaded_environ sys load_dotenv import_effect (environ w);
          stdout :=
            stdout w
            ++ ["🚀 SGLang Mistral Setup Verification"; str_repeat "=" 40]
            ++ ("🔍 Checking environment configuration..." :: l1)
            ++ ((LF +:+ "🔍 Checking dependencies...") :: l2)
            ++ ((LF +:+ "🔍 Checking main script...") :: l3)
            ++ ((LF +:+ "🔍 Checking environment variables...") :: l4)
            ++ [LF +:+ str_repeat "=" 40;
                if all_passed
                then "🎉 All checks passed! Your setup is ready."
                else "❌ Some checks failed. Please fix the issues above."] |},
       inr (if all_passed then Returned else SysExit 1)).
Proof.
  intros Hread Himport all_passed. subst all_passed.
  unfold SetupCheck.main, run_checks.
  match goal with
  | |- context [check_env_file sys ?w'] =>
      destruct (check_env_file_run sys w' Hread) as [l1 ->]
  end.
  match goal with
  | |- context [check_dependencies sys ?w'] =>
      destruct (check_dependencies_run sys w') as [l2 ->]
  end.
  match goal with
  | |- context [check_script sys import_effect ?w'] =>
      destruct (check_script_run sys import_effect w' Himport) as [l3 ->]
  end.
  match goal with
  | |- context [check_environment_variables sys load_dotenv ?w'] =>
      destruct (check_environment_variables_run sys load_dotenv w')
        as [l4 ->]
  end.
  exists l1, l2, l3, l4. unfold loaded_environ. cbn [environ stdout print].
  destruct (env_file_verdict sys (environ w)), (requests_importable sys),
    (bool_decide (package_import_error sys = None)),
    (token_configured _);
    cbn [negb andb]; unfold print; cbn [environ stdout];
    rewrite <- !app_assoc; reflexivity.
Qed.

(** X15: [check_env_file] leaves the environment alone and passes exactly
    when [.env.example] exists and one of these holds: [.env] is missing
    and the global [HF_TOKEN] is set to something other than the
    placeholder; or [.env] is read, and either that global token is set, or
    the content has an occurrence of ["HF_TOKEN="] and none of the
    placeholder assignment.  A [.env] that cannot be read fails the check
    even with a global token. *)
Theorem check_env_file_passes_iff sys w :
  (∀ e, env_file sys = Some (inl e) → is_Exception e = true) →
  let token := getenv (environ w) "HF_TOKEN" "" in
  ∃ w' passed,
    check_env_file sys w = (w', inr passed)
    ∧ environ w' = environ w
    ∧ (passed = true
       ↔ env_example_exists sys = true
         ∧ match env_file sys with
           | None => token ≠ "" ∧ token ≠ "your_huggingface_token_here"
           | Some (inl _) => False
           | Some (inr content) =>
               (token ≠ "" ∧ token ≠ "your_huggingface_token_here")
               ∨ ((∃ pre post, content = pre +:+ "HF_TOKEN=" +:+ post)
                  ∧ ¬ ∃ pre post,
                        content
                        = pre +:+ "HF_TOKEN=your_huggingface_token_here"
                          +:+ post)
           end).
Proof.
  intros Hread token.
  destruct (check_env_file_run sys w Hread) as [lines ->].
  eexists _, _. split; [reflexivity|]. split; [reflexivity|].
  unfold env_file_verdict. rewrite andb_true_iff.
  apply and_iff_compat_l.
  destruct (env_file sys) as [[e|content]|].
  - done.
  - rewrite orb_true_iff, andb_true_iff, negb_true_iff,
      <- not_true_iff_false, !contains_app.
    by rewrite token_configured_true.
  - by rewrite token_configured_true.
Qed.

Lemma check_env_file_passes_iff_witness :
  ∃ w' passed,
    check_env_file SetupScenarios.ready_system SetupScenarios.empty_world
    = (w', inr passed)
    ∧ environ w' = environ SetupScenarios.empty_world
    ∧ (passed = true
       ↔ true = true
         ∧ (("" ≠ "" ∧ "" ≠ "your_huggingface_token_here")
            ∨ ((∃ pre post, "HF_TOKEN=hf_abc" = pre +:+ "HF_TOKEN=" +:+ post)
               ∧ ¬ ∃ pre post,
                     "HF_TOKEN=hf_abc"
                     = pre +:+ "HF_TOKEN=your_huggingface_token_here"
                       +:+ post))).
Proof.
  apply (check_env_file_passes_iff SetupScenarios.ready_system
           SetupScenarios.empty_world).
  intros e He. discriminate He.
Defined.

(** X16: the script returns normally exactly when all four checks pass,
    that is when [check_env_file] passes, [requests] can be imported, the
    package imports, and [HF_TOKEN], read after [load_dotenv] when [dotenv]
    can be imported, and after the import of the package, is set to
    something other than the placeholder;
    otherwise it ends with [sys.exit(1)].  What [hasattr] finds and whether
    [dotenv] can be imported do not fail a check. *)
Theorem setup_main_completion sys load_dotenv import_effect w :
  (∀ e, env_file sys = Some (inl e) → is_Exception e = true) →
  (∀ e, package_import_error sys = Some e → is_Exception e = true) →
  let token :=
    getenv (loaded_environ sys load_dotenv import_effect (environ w)) "HF_TOKEN" "" in
  ∃ w' how,
    SetupCheck.main sys load_dotenv import_effect w = (w', inr how)
    ∧ (how = Returned ∨ how = SysExit 1)
    ∧ (how = Returned
       ↔ env_file_verdict sys (environ w) = true
         ∧ requests_importable sys = true
         ∧ package_import_error sys = None
         ∧ token ≠ "" ∧ token ≠ "your_huggingface_token_here").
Proof.
  intros Hread Himport token.
  destruct (setup_main_run sys load_dotenv import_effect w Hread Himport)
    as (l1 & l2 & l3 & l4 & ->).
  eexists _, _. split; [reflexivity|].
  rewrite <- token_configured_true. fold token.
  destruct (env_file_verdict sys (environ w)), (requests_importable sys),
    (token_configured token);
    case_bool_decide; simpl; (split; [by (left + right)|]);
    split; try done; by intros (? & ? & ? & ?).
Qed.

Lemma setup_main_completion_witness :
  ∃ w' how,
    SetupCheck.main SetupScenarios.ready_system SetupScenarios.load_token
      SetupScenarios.load_token
      SetupScenarios.empty_world
    = (w', inr how)
    ∧ (how = Returned ∨ how = SysExit 1)
    ∧ (how = Returned
       ↔ env_file_verdict SetupScenarios.ready_system
           (environ SetupScenarios.empty_world) = true
         ∧ requests_importable SetupScenarios.ready_system = true
         ∧ package_import_error SetupScenarios.ready_system = None
         ∧ getenv (loaded_environ SetupScenarios.ready_system
                     SetupScenarios.load_token SetupScenarios.load_token
                     (environ SetupScenarios.empty_world)) "HF_TOKEN" ""
           ≠ ""
         ∧ getenv (loaded_environ SetupScenarios.ready_system
                     SetupScenarios.load_token SetupScenarios.load_token
                     (environ SetupScenarios.empty_world)) "HF_TOKEN" ""
           ≠ "your_huggingface_token_here").
Proof.
  apply (setup_main_completion SetupScenarios.ready_system
           SetupScenarios.load_token SetupScenarios.load_token
           SetupScenarios.empty_world).
  - intros e He. discriminate He.
  - intros e He. discriminate He.
Defined.

(** X17: the script runs every check, whatever the earlier ones returned:
    the output always has the banner, then the heading of each of the four
    checks in order, each followed by the lines of that check, then the
    closing rule and one summary line.  The only changes to the environment
    are that of importing the package and then that of [load_dotenv], when
    [dotenv] can be imported. *)
Theorem setup_main_runs_every_check sys load_dotenv import_effect w :
  (∀ e, env_file sys = Some (inl e) → is_Exception e = true) →
  (∀ e, package_import_error sys = Some e → is_Exception e = true) →
  ∃ w' how l1 l2 l3 l4 summary,
    SetupCheck.main sys load_dotenv import_effect w = (w', inr how)
    ∧ environ w'
      = (if dotenv_importable sys
         then load_dotenv (import_effect (environ w))
         else import_effect (environ w))
    ∧ stdout w'
      = stdout w
        ++ ["🚀 SGLang Mistral Setup Verification";
            "========================================"]
        ++ ("🔍 Checking environment configuration..." :: l1)
        ++ ((LF +:+ "🔍 Checking dependencies...") :: l2)
        ++ ((LF +:+ "🔍 Checking main script...") :: l3)
        ++ ((LF +:+ "🔍 Checking environment variables...") :: l4)
        ++ [LF +:+ "========================================"; summary].
Proof.
  intros Hread Himport.
  destruct (setup_main_run sys load_dotenv import_effect w Hread Himport)
    as (l1 & l2 & l3 & l4 & ->).
  by eexists _, _, l1, l2, l3, l4, _.
Qed.

Lemma setup_main_runs_every_check_witness :
  ∃ w' how l1 l2 l3 l4 summary,
    SetupCheck.main SetupScenarios.broken_system SetupScenarios.load_token
      SetupScenarios.load_token
      SetupScenarios.empty_world
    = (w', inr how)
    ∧ environ w'
      = (if dotenv_importable SetupScenarios.broken_system
         then SetupScenarios.load_token
                (SetupScenarios.load_token
                   (environ SetupScenarios.empty_world))
         else SetupScenarios.load_token
                (environ SetupScenarios.empty_world))
    ∧ stdout w'
      = stdout SetupScenarios.empty_world
        ++ ["🚀 SGLang Mistral Setup Verification";
            "========================================"]
        ++ ("🔍 Checking environment configuration..." :: l1)
        ++ ((LF +:+ "🔍 Checking dependencies...") :: l2)
        ++ ((LF +:+ "🔍 Checking main script...") :: l3)
        ++ ((LF +:+ "🔍 Checking environment variables...") :: l4)
        ++ [LF +:+ "========================================"; summary].
Proof.
  apply (setup_main_runs_every_check SetupScenarios.broken_system
           SetupScenarios.load_token SetupScenarios.load_token
           SetupScenarios.empty_world).
  - intros e [= <-]. reflexivity.
  - intros e [= <-]. reflexivity.
Defined.

(** The two systems, run. *)
Example setup_main_ready :
  (SetupCheck.main SetupScenarios.ready_system SetupScenarios.load_token
      SetupScenarios.load_token
     SetupScenarios.empty_world).2
  = inr Returned.
Proof. vm_compute. reflexivity. Qed.

Example setup_main_broken :
  (SetupCheck.main SetupScenarios.broken_system SetupScenarios.load_token
      SetupScenarios.load_token
     SetupScenarios.empty_world).2
  = inr (SysExit 1).
Proof. vm_compute. reflexivity. Qed.

End SetupCheckProperties.

(** The representations that the test suite expects. *)
Example repr_default_client :
  CliMain.repr default_client
  = "SGLangMistralClient(host='localhost', port=30000, model='OPEA/Mistral-Small-3.1-24B-Instruct-2503-int4-AutoRound-awq-sym')".
Proof. reflexivity. Qed.

Example repr_custom_client :
  CliMain.repr {| host := "custom-host"; port := 8080; model := "custom-model";
                  base_url := "http://custom-host:8080" |}
  = "SGLangMistralClient(host='custom-host', port=8080, model='custom-model')".
Proof. reflexivity. Qed.
